(** * SendPayment: the XLM payment flow of the Stellar wallet front-end

    A shallow embedding of [src/components/SendPayment.jsx] (the form
    validation [validateInputs], the asynchronous handler
    [handleSendPayment], the submit control of the rendered form) and of
    the callback [handleTransactionComplete] of [src/pages/Index.tsx].

    Conventions of the embedding.
    - A JavaScript string is a [string]; each [ascii] stands for one code
      unit below 256 (so the white space of [trim] and [parseFloat] is
      TAB, LF, VT, FF, CR, SP and NBSP).
    - A JavaScript Number is a [number]: NaN, an infinity, or a finite
      binary64 value [m * 2^e] with its sign.  Decimal text is converted by
      round-to-nearest, ties-to-even.
    - The component state is the record [State]; the handler runs in a
      small state-and-exception monad [M] over a [World] that also keeps the
      log of effects, among them every suspension ([await]) with the state
      that is on screen while the handler is suspended. *)

From Stdlib Require Import String Ascii List ZArith Bool Lia.
Import ListNotations.
Local Open Scope string_scope.
Local Open Scope Z_scope.

(** ** JavaScript strings *)

Module JsString.

(** WhiteSpace and LineTerminator code units below 256. *)
Definition is_white_space (c : ascii) : bool :=
  let n := N_of_ascii c in
  ((9 <=? n) && (n <=? 13))%N || (n =? 32)%N || (n =? 160)%N.

Fixpoint trimStart (s : string) : string :=
  match s with
  | EmptyString => EmptyString
  | String c s' => if is_white_space c then trimStart s' else s
  end.

(** [trimEnd]: a white-space character is dropped when nothing but white
    space follows it. *)
Fixpoint trimEnd (s : string) : string :=
  match s with
  | EmptyString => EmptyString
  | String c s' =>
      match trimEnd s' with
      | EmptyString => if is_white_space c then EmptyString else String c EmptyString
      | t => String c t
      end
  end.

(** [String.prototype.trim] *)
Definition trim (s : string) : string := trimEnd (trimStart s).

(** Truthiness of a string: only the empty string is falsy. *)
Definition truthy (s : string) : bool :=
  match s with EmptyString => false | _ => true end.

Fixpoint all_white (s : string) : bool :=
  match s with
  | EmptyString => true
  | String c s' => is_white_space c && all_white s'
  end.

End JsString.

(** ** JavaScript numbers *)

Module JsNumber.

(** A Number value.  [Finite neg m e] is [(-1)^neg * m * 2^e] with
    [0 <= m]; the zeros are [Finite _ 0 _]. *)
Inductive number : Type :=
| NaN : number
| Infinity (neg : bool) : number
| Finite (neg : bool) (m : Z) (e : Z) : number.

Definition isNaN (x : number) : bool :=
  match x with NaN => true | _ => false end.

(** [floor (log2 (p / q))] for positive [p], [q]. *)
Definition floor_log2_ratio (p q : Z) : Z :=
  let l := Z.log2 p - Z.log2 q in
  if 0 <=? l
  then (if q * 2 ^ l <=? p then l else l - 1)
  else (if q <=? p * 2 ^ (- l) then l else l - 1).

(** The binary64 value nearest to [p / q] (ties to even), for positive
    [p] and [q]: 53 bits of significand, least exponent -1074, overflow
    to infinity above [(2^53 - 1) * 2^971]. *)
Definition round_ratio (neg : bool) (p q : Z) : number :=
  let e := Z.max (floor_log2_ratio p q - 52) (-1074) in
  let num := if 0 <=? e then p else p * 2 ^ (- e) in
  let den := if 0 <=? e then q * 2 ^ e else q in
  let m0 := num / den in
  let r := num mod den in
  let m :=
    if 2 * r <? den then m0
    else if den <? 2 * r then m0 + 1
    else if Z.even m0 then m0 else m0 + 1 in
  let '(m, e) := if m =? 2 ^ 53 then (2 ^ 52, e + 1) else (m, e) in
  if 971 <? e then Infinity neg else Finite neg m e.

(** The Number for the decimal [d * 10^x], [0 <= d]. *)
Definition of_decimal (neg : bool) (d x : Z) : number :=
  if d =? 0 then Finite neg 0 0
  else if 0 <=? x then round_ratio neg (d * 10 ^ x) 1
  else round_ratio neg d (10 ^ (- x)).

(** Exact comparison of two finite magnitudes [m1 * 2^e1 < m2 * 2^e2]. *)
Definition mag_ltb (m1 e1 m2 e2 : Z) : bool :=
  let e := Z.min e1 e2 in
  m1 * 2 ^ (e1 - e) <? m2 * 2 ^ (e2 - e).

(** The relational operator [x < y]; false when either side is NaN. *)
Definition ltb (x y : number) : bool :=
  match x, y with
  | NaN, _ | _, NaN => false
  | Infinity nx, Infinity ny => nx && negb ny
  | Infinity nx, Finite _ _ _ => nx
  | Finite _ _ _, Infinity ny => negb ny
  | Finite nx mx ex, Finite ny my ey =>
      match nx, ny with
      | false, false => mag_ltb mx ex my ey
      | true, true => mag_ltb my ey mx ex
      | true, false => negb ((mx =? 0) && (my =? 0))
      | false, true => false
      end
  end.

Definition eqb (x y : number) : bool :=
  match x, y with
  | NaN, _ | _, NaN => false
  | Infinity nx, Infinity ny => Bool.eqb nx ny
  | Finite nx mx ex, Finite ny my ey =>
      ((mx =? 0) && (my =? 0))
      || (Bool.eqb nx ny && negb (mag_ltb mx ex my ey) && negb (mag_ltb my ey mx ex))
  | _, _ => false
  end.

(** The relational operator [x <= y]. *)
Definition leb (x y : number) : bool := ltb x y || eqb x y.

Definition zero : number := Finite false 0 0.

(** ** parseFloat *)

Definition is_digit (c : ascii) : bool :=
  let n := N_of_ascii c in ((48 <=? n) && (n <=? 57))%N.

Definition digit_value (c : ascii) : Z := Z.of_N (N_of_ascii c) - 48.

(** Reads the longest run of decimal digits: the accumulated value, the
    number of digits read and the rest of the text. *)
Fixpoint read_digits (s : string) (acc : Z) (n : Z) : Z * Z * string :=
  match s with
  | String c s' =>
      if is_digit c then read_digits s' (10 * acc + digit_value c) (n + 1)
      else (acc, n, s)
  | EmptyString => (acc, n, s)
  end.

(** ExponentPart, when one is present at the head of [s]; 0 otherwise
    (the longest prefix that is a StrDecimalLiteral then stops before the
    exponent indicator). *)
Definition read_exponent (s : string) : Z :=
  match s with
  | String c s' =>
      if (Ascii.eqb c "e" || Ascii.eqb c "E")%bool then
        match s' with
        | String sg s'' =>
            if Ascii.eqb sg "-" then
              let '(v, n, _) := read_digits s'' 0 0 in
              if n =? 0 then 0 else - v
            else if Ascii.eqb sg "+" then
              let '(v, n, _) := read_digits s'' 0 0 in
              if n =? 0 then 0 else v
            else
              let '(v, n, _) := read_digits s' 0 0 in
              if n =? 0 then 0 else v
        | EmptyString => 0
        end
      else 0
  | EmptyString => 0
  end.

(** The mathematical value of a StrUnsignedDecimalLiteral before it is
    rounded: [Infinity], or the decimal [d * 10^x]. *)
Inductive literal : Type :=
| LitInfinity : literal
| LitDecimal (d x : Z) : literal.

(** The longest prefix of [s] that is a StrUnsignedDecimalLiteral. *)
Definition scan_unsigned (s : string) : option literal :=
  if prefix "Infinity" s then Some LitInfinity
  else
    let '(iv, il, rest) := read_digits s 0 0 in
    match rest with
    | String "." rest' =>
        let '(v, fl, rest'') := read_digits rest' iv 0 in
        if (il =? 0) && (fl =? 0) then None
        else Some (LitDecimal v (read_exponent rest'' - fl))
    | _ =>
        if il =? 0 then None
        else Some (LitDecimal iv (read_exponent rest))
    end.

(** Sign and literal of the StrDecimalLiteral at the head of the text,
    after the leading white space. *)
Definition scan (input : string) : bool * option literal :=
  match JsString.trimStart input with
  | String "-" s => (true, scan_unsigned s)
  | String "+" s => (false, scan_unsigned s)
  | s => (false, scan_unsigned s)
  end.

Definition to_number (neg : bool) (l : option literal) : number :=
  match l with
  | None => NaN
  | Some LitInfinity => Infinity neg
  | Some (LitDecimal d x) => of_decimal neg d x
  end.

(** The global function [parseFloat]. *)
Definition parseFloat (input : string) : number :=
  let '(neg, l) := scan input in to_number neg l.

(** The Number denoted by the source literal [0.0000001]. *)
Definition min_amount : number := Finite false 7555786372591432 (-76).

End JsNumber.


Import JsString JsNumber.

(** ** Thrown values and settled promises *)

(** A thrown value, as far as the handler looks at it: its [message]
    property ([None] when the value has none). *)
Record js_error : Type := Error { message : option string }.

(** What a call, or an awaited promise, settles to. *)
Inductive outcome (A : Type) : Type :=
| Returned (a : A)
| Thrown (err : js_error).
Arguments Returned {A} a.
Arguments Thrown {A} err.

Definition new_Error (msg : string) : js_error := Error (Some msg).

(** ** The component state *)

(** The value kept by [setSuccess]. *)
Record SuccessInfo : Type := { hash : string; explorerUrl : string }.

(** The six [useState] cells of the component. *)
Record State : Type := {
  destination : string;
  amount : string;
  isLoading : bool;
  error : option string;
  success : option SuccessInfo;
  step : string
}.

(** A call of one of the six setters. *)
Inductive Update : Type :=
| SetDestination (v : string)
| SetAmount (v : string)
| SetIsLoading (v : bool)
| SetError (v : option string)
| SetSuccess (v : option SuccessInfo)
| SetStep (v : string).

Definition apply_update (u : Update) (s : State) : State :=
  match u with
  | SetDestination v =>
      {| destination := v; amount := amount s; isLoading := isLoading s;
         error := error s; success := success s; step := step s |}
  | SetAmount v =>
      {| destination := destination s; amount := v; isLoading := isLoading s;
         error := error s; success := success s; step := step s |}
  | SetIsLoading v =>
      {| destination := destination s; amount := amount s; isLoading := v;
         error := error s; success := success s; step := step s |}
  | SetError v =>
      {| destination := destination s; amount := amount s; isLoading := isLoading s;
         error := v; success := success s; step := step s |}
  | SetSuccess v =>
      {| destination := destination s; amount := amount s; isLoading := isLoading s;
         error := error s; success := v; step := step s |}
  | SetStep v =>
      {| destination := destination s; amount := amount s; isLoading := isLoading s;
         error := error s; success := success s; step := v |}
  end.

(** ** Effects of the handler *)

(** The options object handed to the signer. *)
Record SignOpts : Type := {
  network : string;
  networkPassphrase : string;
  accountToSign : string
}.

(** The three awaited calls. *)
Inductive Call : Type :=
| Build (source dest amt : string)
| Sign (xdr : string) (opts : SignOpts)
| Submit (signedXDR : string).

(** What the handler does to the outside, in order: setter calls, awaited
    calls (with the state that is rendered while the handler is suspended),
    the call of the parent's callback, and the console output. *)
Inductive Effect : Type :=
| SetState (u : Update)
| Await (c : Call) (screen : State)
| Notify
| ConsoleError (err : js_error).

(** The component state, the refresh counter of the parent page and the
    effects so far (oldest first). *)
Record World : Type := {
  ui : State;
  balanceRefreshKey : Z;
  log : list Effect
}.

(** ** The monad of the handler: state and exceptions *)

Definition M (A : Type) : Type := World -> outcome A * World.

Definition ret {A} (a : A) : M A := fun w => (Returned a, w).

Definition bind {A B} (m : M A) (k : A -> M B) : M B :=
  fun w =>
    match m w with
    | (Returned a, w') => k a w'
    | (Thrown e, w') => (Thrown e, w')
    end.

Definition throw {A} (e : js_error) : M A := fun w => (Thrown e, w).

Declare Scope flow_scope.
Delimit Scope flow_scope with flow.
Notation "x <- m ;; k" := (bind m (fun x => k))
  (at level 61, m at next level, right associativity) : flow_scope.
Notation "m ;; k" := (bind m (fun _ => k))
  (at level 61, right associativity) : flow_scope.
Local Open Scope flow_scope.

(** [try { body } catch (err) { handler } finally { finalizer }] *)
Definition try_catch_finally (body : M unit) (handler : js_error -> M unit)
    (finalizer : M unit) : M unit :=
  fun w =>
    let '(r, w1) :=
      match body w with
      | (Returned a, w') => (Returned a, w')
      | (Thrown e, w') => handler e w'
      end in
    match finalizer w1 with
    | (Returned _, w2) => (r, w2)
    | (Thrown e, w2) => (Thrown e, w2)
    end.

Definition emit (e : Effect) : M unit :=
  fun w => (Returned tt,
            {| ui := ui w; balanceRefreshKey := balanceRefreshKey w;
               log := log w ++ [e] |}).

(** A setter: the update is recorded and applied to the state. *)
Definition set (u : Update) : M unit :=
  fun w => (Returned tt,
            {| ui := apply_update u (ui w);
               balanceRefreshKey := balanceRefreshKey w;
               log := log w ++ [SetState u] |}).

(** [await call]: the handler is suspended on the current screen and
    resumes with what the promise settles to. *)
Definition await {A} (c : Call) (settled : outcome A) : M A :=
  fun w => (settled,
            {| ui := ui w; balanceRefreshKey := balanceRefreshKey w;
               log := log w ++ [Await c (ui w)] |}).

Definition lift {A} (o : outcome A) : M A := fun w => (o, w).

(** The parent's callback: a functional update of its refresh counter. *)
Definition Callback : Type := Z -> Z.

Definition call_parent (f : Callback) : M unit :=
  fun w => (Returned tt,
            {| ui := ui w; balanceRefreshKey := f (balanceRefreshKey w);
               log := log w ++ [Notify] |}).

(** ** src/pages/Index.tsx *)

(** [setBalanceRefreshKey((prev) => prev + 1)] on a Number that counts up
    from 0: exact below [2^53], where [prev + 1] rounds back to [prev]. *)
Definition handleTransactionComplete : Callback :=
  fun prev => if prev <? 2 ^ 53 then prev + 1 else prev.

(** ** src/components/SendPayment.jsx *)

Record Props : Type := {
  publicKey : string;
  onTransactionComplete : option Callback
}.

(** The props [Index] mounts the component with. *)
Definition Index_props (pk : string) : Props :=
  {| publicKey := pk; onTransactionComplete := Some handleTransactionComplete |}.

(** The result of a submission. *)
Record SubmitResult : Type := { result_hash : string }.

Definition msg_destination_required : string := "Destination address is required".
Definition msg_invalid_address : string :=
  "Invalid Stellar address format. Must start with 'G' and be 56 characters.".
Definition msg_self_send : string := "Cannot send to your own address".
Definition msg_amount_required : string := "Amount is required".
Definition msg_amount_not_positive : string := "Amount must be a positive number".
Definition msg_amount_below_minimum : string := "Amount is below minimum (0.0000001 XLM)".
Definition msg_signing_cancelled : string := "Transaction signing was cancelled".
Definition msg_fallback : string := "Transaction failed. Please try again.".

(** [a || b] on a possibly missing string. *)
Definition or_else (a : option string) (b : string) : string :=
  match a with
  | Some s => if truthy s then s else b
  | None => b
  end.

(** Truthiness of what the signer resolves to ([None] is null/undefined). *)
Definition signed_truthy (x : option string) : bool :=
  match x with Some s => truthy s | None => false end.

(** The "disabled" attribute of the submit button:
    [isLoading || !destination || !amount]. *)
Definition submit_disabled (s : State) : bool :=
  isLoading s || negb (truthy (destination s)) || negb (truthy (amount s)).

(** The error banner: [{error && ...}]. *)
Definition error_banner_shown (s : State) : bool :=
  match error s with Some m => truthy m | None => false end.

(** The success banner: [{success && ...}]. *)
Definition success_banner_shown (s : State) : bool :=
  match success s with Some _ => true | None => false end.

Definition getStepLabel (s : State) : string :=
  if String.eqb (step s) "signing" then "Waiting for signature..."
  else if String.eqb (step s) "submitting" then "Submitting transaction..."
  else "Processing...".

(** The imports from [@/stellar/stellarClient] and
    [@stellar/freighter-api], which are not part of the sources at hand:
    whatever they are, the component only calls them. *)
Record Imports : Type := {
  isValidPublicKey : string -> bool;
  getExplorerUrl : string -> string;
  NETWORK_PASSPHRASE : string;
  buildPaymentTransaction : string -> string -> string -> outcome string;
  signTransaction : string -> SignOpts -> outcome (option string);
  submitTransaction : string -> outcome SubmitResult
}.

(** A flow invocation: the handler of the render of [s], run from an empty
    log. *)
Definition fresh (s : State) (key : Z) : World :=
  {| ui := s; balanceRefreshKey := key; log := [] |}.

(** The screen while the handler is suspended at step [st]. *)
Definition in_progress (s : State) (st : string) : State :=
  {| destination := destination s; amount := amount s; isLoading := true;
     error := None; success := None; step := st |}.

(** The state a run that was caught with [err] ends in. *)
Definition failed_with (s : State) (err : js_error) : State :=
  {| destination := destination s; amount := amount s; isLoading := false;
     error := Some (or_else (message err) msg_fallback); success := None;
     step := "input" |}.

Definition succeeded_with (info : SuccessInfo) : State :=
  {| destination := ""; amount := ""; isLoading := false;
     error := None; success := Some info; step := "input" |}.

(** The effects every run starts with, once validation has passed. *)
Definition prologue : list Effect :=
  [SetState (SetError None); SetState (SetSuccess None);
   SetState (SetIsLoading true); SetState (SetStep "signing")].

(** The effects of [catch] and [finally]. *)
Definition caught (err : js_error) : list Effect :=
  [ConsoleError err;
   SetState (SetError (Some (or_else (message err) msg_fallback)));
   SetState (SetIsLoading false); SetState (SetStep "input")].

Section SendPayment.

Variable env : Imports.
Variable props : Props.

(** [validateInputs], over the [destination] and [amount] of the render
    that created it. *)
Definition validateInputs (destination amount : string) : outcome bool :=
  if negb (truthy (trim destination)) then
    Thrown (new_Error msg_destination_required)
  else if negb (isValidPublicKey env (trim destination)) then
    Thrown (new_Error msg_invalid_address)
  else if String.eqb (trim destination) (publicKey props) then
    Thrown (new_Error msg_self_send)
  else if negb (truthy (trim amount)) then
    Thrown (new_Error msg_amount_required)
  else
    let numAmount := parseFloat amount in
    if isNaN numAmount || leb numAmount zero then
      Thrown (new_Error msg_amount_not_positive)
    else if ltb numAmount min_amount then
      Thrown (new_Error msg_amount_below_minimum)
    else Returned true.

Definition sign_opts : SignOpts :=
  {| network := "TESTNET";
     networkPassphrase := NETWORK_PASSPHRASE env;
     accountToSign := publicKey props |}.

(** [handleSendPayment], created by the render of state [rendered]. *)
Definition handleSendPayment (rendered : State) : M unit :=
  let destination := destination rendered in
  let amount := amount rendered in
  set (SetError None) ;;
  set (SetSuccess None) ;;
  try_catch_finally
    (lift (validateInputs destination amount) ;;
     set (SetIsLoading true) ;;
     set (SetStep "signing") ;;
     transactionXDR <-
       await (Build (publicKey props) (trim destination) (trim amount))
             (buildPaymentTransaction env (publicKey props) (trim destination) (trim amount)) ;;
     signedXDR <-
       await (Sign transactionXDR sign_opts)
             (signTransaction env transactionXDR sign_opts) ;;
     match signedXDR with
     | Some signed =>
         if truthy signed then
           set (SetStep "submitting") ;;
           result <- await (Submit signed) (submitTransaction env signed) ;;
           set (SetSuccess (Some {| hash := result_hash result;
                                    explorerUrl := getExplorerUrl env (result_hash result) |})) ;;
           set (SetDestination "") ;;
           set (SetAmount "") ;;
           match onTransactionComplete props with
           | Some f => call_parent f
           | None => ret tt
           end
         else throw (new_Error msg_signing_cancelled)
     | None => throw (new_Error msg_signing_cancelled)
     end)
    (fun err =>
       emit (ConsoleError err) ;;
       set (SetError (Some (or_else (message err) msg_fallback))))
    (set (SetIsLoading false) ;;
     set (SetStep "input")).

(** The form's [onSubmit], reached through the submit button only while
    the button is enabled. *)
Definition submit_form : M unit :=
  fun w =>
    if submit_disabled (ui w) then (Returned tt, w)
    else handleSendPayment (ui w) w.

(** One flow invocation from the form state [s]: the world it ends in. *)
Definition invoke (s : State) (key : Z) : World :=
  snd (handleSendPayment s (fresh s key)).

Definition build_call (s : State) : Call :=
  Build (publicKey props) (trim (destination s)) (trim (amount s)).

Definition build_of (s : State) : outcome string :=
  buildPaymentTransaction env (publicKey props) (trim (destination s)) (trim (amount s)).

Definition sign_call (xdr : string) : Call :=
  Sign xdr sign_opts.

Definition sign_of (xdr : string) : outcome (option string) :=
  signTransaction env xdr sign_opts.

(** The six ways an invocation can go, each with the world it ends in. *)
Inductive Ends (s : State) (key : Z) : World -> Prop :=
| EndsInvalid err :
    validateInputs (destination s) (amount s) = Thrown err ->
    Ends s key
      {| ui := failed_with s err; balanceRefreshKey := key;
         log := [SetState (SetError None); SetState (SetSuccess None)] ++ caught err |}
| EndsBuildFailed err :
    validateInputs (destination s) (amount s) = Returned true ->
    build_of s = Thrown err ->
    Ends s key
      {| ui := failed_with s err; balanceRefreshKey := key;
         log := prologue ++ [Await (build_call s) (in_progress s "signing")] ++ caught err |}
| EndsSignFailed xdr err :
    validateInputs (destination s) (amount s) = Returned true ->
    build_of s = Returned xdr ->
    sign_of xdr = Thrown err ->
    Ends s key
      {| ui := failed_with s err; balanceRefreshKey := key;
         log := prologue ++
                [Await (build_call s) (in_progress s "signing");
                 Await (sign_call xdr) (in_progress s "signing")] ++ caught err |}
| EndsCancelled xdr signed :
    validateInputs (destination s) (amount s) = Returned true ->
    build_of s = Returned xdr ->
    sign_of xdr = Returned signed ->
    signed_truthy signed = false ->
    Ends s key
      {| ui := failed_with s (new_Error msg_signing_cancelled); balanceRefreshKey := key;
         log := prologue ++
                [Await (build_call s) (in_progress s "signing");
                 Await (sign_call xdr) (in_progress s "signing")] ++
                caught (new_Error msg_signing_cancelled) |}
| EndsSubmitFailed xdr signed err :
    validateInputs (destination s) (amount s) = Returned true ->
    build_of s = Returned xdr ->
    sign_of xdr = Returned (Some signed) ->
    truthy signed = true ->
    submitTransaction env signed = Thrown err ->
    Ends s key
      {| ui := failed_with s err; balanceRefreshKey := key;
         log := prologue ++
                [Await (build_call s) (in_progress s "signing");
                 Await (sign_call xdr) (in_progress s "signing");
                 SetState (SetStep "submitting");
                 Await (Submit signed) (in_progress s "submitting")] ++ caught err |}
| EndsSubmitted xdr signed r :
    validateInputs (destination s) (amount s) = Returned true ->
    build_of s = Returned xdr ->
    sign_of xdr = Returned (Some signed) ->
    truthy signed = true ->
    submitTransaction env signed = Returned r ->
    Ends s key
      {| ui := succeeded_with
                 {| hash := result_hash r; explorerUrl := getExplorerUrl env (result_hash r) |};
         balanceRefreshKey :=
           match onTransactionComplete props with Some f => f key | None => key end;
         log := prologue ++
                [Await (build_call s) (in_progress s "signing");
                 Await (sign_call xdr) (in_progress s "signing");
                 SetState (SetStep "submitting");
                 Await (Submit signed) (in_progress s "submitting");
                 SetState (SetSuccess
                   (Some {| hash := result_hash r;
                            explorerUrl := getExplorerUrl env (result_hash r) |}));
                 SetState (SetDestination ""); SetState (SetAmount "")] ++
                match onTransactionComplete props with Some _ => [Notify] | None => [] end ++
                [SetState (SetIsLoading false); SetState (SetStep "input")] |}.

End SendPayment.

(** ** Reading the log *)

Fixpoint awaited (l : list Effect) : list Call :=
  match l with
  | Await c _ :: l' => c :: awaited l'
  | _ :: l' => awaited l'
  | [] => []
  end.

(** The step shown on screen during each suspension. *)
Fixpoint steps_on_screen (l : list Effect) : list (Call * string) :=
  match l with
  | Await c scr :: l' => (c, step scr) :: steps_on_screen l'
  | _ :: l' => steps_on_screen l'
  | [] => []
  end.

Fixpoint step_updates (l : list Effect) : list string :=
  match l with
  | SetState (SetStep v) :: l' => v :: step_updates l'
  | _ :: l' => step_updates l'
  | [] => []
  end.

Fixpoint notifications (l : list Effect) : nat :=
  match l with
  | Notify :: l' => S (notifications l')
  | _ :: l' => notifications l'
  | [] => O
  end.

Definition is_field_update (e : Effect) : bool :=
  match e with
  | SetState (SetDestination _) | SetState (SetAmount _) => true
  | _ => false
  end.

(** ** The validation rules, in the order of the source *)

Inductive Violation : Type :=
| DestinationMissing
| DestinationInvalid
| SelfSend
| AmountMissing
| AmountNotPositive
| AmountBelowMinimum.

Definition violation_message (v : Violation) : string :=
  match v with
  | DestinationMissing => msg_destination_required
  | DestinationInvalid => msg_invalid_address
  | SelfSend => msg_self_send
  | AmountMissing => msg_amount_required
  | AmountNotPositive => msg_amount_not_positive
  | AmountBelowMinimum => msg_amount_below_minimum
  end.

Section Rules.

Variable env : Imports.
Variable props : Props.

(** The guard of each [throw] of [validateInputs]. *)
Definition violates (v : Violation) (destination amount : string) : bool :=
  match v with
  | DestinationMissing => negb (truthy (trim destination))
  | DestinationInvalid => negb (isValidPublicKey env (trim destination))
  | SelfSend => String.eqb (trim destination) (publicKey props)
  | AmountMissing => negb (truthy (trim amount))
  | AmountNotPositive => isNaN (parseFloat amount) || leb (parseFloat amount) zero
  | AmountBelowMinimum => ltb (parseFloat amount) min_amount
  end.

Definition first_violation (destination amount : string) : option Violation :=
  find (fun v => violates v destination amount)
    [DestinationMissing; DestinationInvalid; SelfSend;
     AmountMissing; AmountNotPositive; AmountBelowMinimum].

End Rules.


(** ** AddressValidator *)

Section AddressValidatorModel.

(** The check of the checksum encoding, which the spec does not detail. *)
Variable checksum_ok : string -> bool.

(** Modelled from the spec: [isValidPublicKey] of [@/stellar/stellarClient]
    is missing from the sources.  The spec asks for a fixed length, a fixed
    prefix character and a valid checksum encoding; the length 56 and the
    prefix G are the ones the error message of [validateInputs] names. *)
Definition AddressValidator (s : string) : bool :=
  (String.length s =? 56)%nat && prefix "G" s && checksum_ok s.

End AddressValidatorModel.

(** ** A concrete environment for the examples *)

Module Sample.

Definition source_key : string :=
  "GAAAAAAAAAAAAAAAAAAAAAAAAAAAAAAAAAAAAAAAAAAAAAAAAAAAAAAA".
Definition dest_key : string :=
  "GBBBBBBBBBBBBBBBBBBBBBBBBBBBBBBBBBBBBBBBBBBBBBBBBBBBBBBB".

Definition valid_key (s : string) : bool :=
  (String.length s =? 56)%nat && prefix "G" s.
Definition explorer (h : string) : string :=
  "https://stellar.expert/explorer/testnet/tx/" ++ h.
Definition passphrase : string := "Test SDF Network ; September 2015".

Definition build_ok (src dst amt : string) : outcome string :=
  Returned ("unsigned:" ++ dst ++ ":" ++ amt).
Definition build_fails (src dst amt : string) : outcome string :=
  Thrown (new_Error "Account not found").
Definition sign_ok (xdr : string) (o : SignOpts) : outcome (option string) :=
  Returned (Some ("signed:" ++ xdr)).
Definition sign_declined (xdr : string) (o : SignOpts) : outcome (option string) :=
  Returned None.
Definition submit_ok (signed : string) : outcome SubmitResult :=
  Returned {| result_hash := "abc123" |}.
Definition submit_fails (signed : string) : outcome SubmitResult :=
  Thrown (Error None).

Definition props : Props := Index_props source_key.

Definition imports (build : string -> string -> string -> outcome string)
    (sign : string -> SignOpts -> outcome (option string))
    (submit : string -> outcome SubmitResult) : Imports :=
  {| isValidPublicKey := valid_key; getExplorerUrl := explorer;
     NETWORK_PASSPHRASE := passphrase; buildPaymentTransaction := build;
     signTransaction := sign; submitTransaction := submit |}.

Definition form (d a : string) : State :=
  {| destination := d; amount := a; isLoading := false;
     error := None; success := None; step := "input" |}.

Definition declined : Imports := imports build_ok sign_declined submit_ok.
Definition all_ok : Imports := imports build_ok sign_ok submit_ok.
Definition no_account : Imports := imports build_fails sign_ok submit_ok.

Definition filled : State := form dest_key "1.5".

End Sample.

(** ** Handlers of the other components *)

(** The monad of a handler over any world [W]: state and exceptions. *)
Definition Act (W A : Type) : Type := W -> outcome A * W.

Definition act_ret {W A} (a : A) : Act W A := fun w => (Returned a, w).

Definition act_bind {W A B} (m : Act W A) (k : A -> Act W B) : Act W B :=
  fun w =>
    match m w with
    | (Returned a, w') => k a w'
    | (Thrown e, w') => (Thrown e, w')
    end.

Definition act_throw {W A} (e : js_error) : Act W A := fun w => (Thrown e, w).

(** [try { body } catch (err) { handler }] *)
Definition act_catch {W A} (body : Act W A) (handler : js_error -> Act W A) : Act W A :=
  fun w =>
    match body w with
    | (Returned a, w') => (Returned a, w')
    | (Thrown e, w') => handler e w'
    end.

(** [try { body } finally { finalizer }] *)
Definition act_finally {W A} (body : Act W A) (finalizer : Act W unit) : Act W A :=
  fun w =>
    let '(r, w1) := body w in
    match finalizer w1 with
    | (Returned _, w2) => (r, w2)
    | (Thrown e, w2) => (Thrown e, w2)
    end.

Declare Scope act_scope.
Delimit Scope act_scope with act.
Notation "x <- m ;; k" := (act_bind m (fun x => k))
  (at level 61, m at next level, right associativity) : act_scope.
Notation "m ;; k" := (act_bind m (fun _ => k))
  (at level 61, right associativity) : act_scope.

(** Truthiness of a value that is a string, null or undefined. *)
Definition opt_truthy (x : option string) : bool :=
  match x with Some s => truthy s | None => false end.

(** [String.prototype.slice(start, end)]; [None] is an omitted [end]. *)
Definition slice (s : string) (start : Z) (stop : option Z) : string :=
  let len := Z.of_nat (String.length s) in
  let clamp i := if i <? 0 then Z.max (len + i) 0 else Z.min i len in
  let from := clamp start in
  let to := match stop with Some e => clamp e | None => len end in
  substring (Z.to_nat from) (Z.to_nat (Z.max (to - from) 0)) s.

(** ** src/pages/Index.tsx: the state of the page *)

Module Index.

Record Page : Type := {
  publicKey : option string;
  balanceRefreshKey : Z
}.

Definition initial : Page := {| publicKey := None; balanceRefreshKey := 0 |}.

Definition handleConnect (pubKey : string) (p : Page) : Page :=
  {| publicKey := Some pubKey; balanceRefreshKey := balanceRefreshKey p |}.

Definition handleDisconnect (p : Page) : Page :=
  {| publicKey := None; balanceRefreshKey := balanceRefreshKey p |}.

End Index.

(** ** src/components/WalletConnect.jsx *)

Module WalletConnect.

Local Open Scope act_scope.

Record State : Type := {
  isLoading : bool;
  error : option string;
  freighterInstalled : option bool;
  networkCorrect : bool
}.

Definition initial : State :=
  {| isLoading := false; error := None; freighterInstalled := None;
     networkCorrect := true |}.

Inductive Update : Type :=
| SetIsLoading (v : bool)
| SetError (v : option string)
| SetFreighterInstalled (v : bool)
| SetNetworkCorrect (v : bool).

Definition apply_update (u : Update) (s : State) : State :=
  match u with
  | SetIsLoading v =>
      {| isLoading := v; error := error s;
         freighterInstalled := freighterInstalled s; networkCorrect := networkCorrect s |}
  | SetError v =>
      {| isLoading := isLoading s; error := v;
         freighterInstalled := freighterInstalled s; networkCorrect := networkCorrect s |}
  | SetFreighterInstalled v =>
      {| isLoading := isLoading s; error := error s;
         freighterInstalled := Some v; networkCorrect := networkCorrect s |}
  | SetNetworkCorrect v =>
      {| isLoading := isLoading s; error := error s;
         freighterInstalled := freighterInstalled s; networkCorrect := v |}
  end.

(** The calls into [@stellar/freighter-api]. *)
Inductive Call : Type :=
| IsConnected | IsAllowed | SetAllowed | GetPublicKey | GetNetwork.

Inductive Effect : Type :=
| SetState (u : Update)
| Await (c : Call) (screen : State)
| OnConnect (pubKey : string)
| OnDisconnect
| ConsoleError (label : string) (err : js_error).

(** The extension, with a state [X] of its own: each call settles and
    moves that state (the answer of [isAllowed] changes once [setAllowed]
    has been granted, for one). *)
Record Freighter (X : Type) : Type := {
  isConnected : X -> outcome bool * X;
  isAllowed : X -> outcome bool * X;
  setAllowed : X -> outcome unit * X;
  getPublicKey : X -> outcome (option string) * X;
  getNetwork : X -> outcome string * X
}.
Arguments isConnected {X}.
Arguments isAllowed {X}.
Arguments setAllowed {X}.
Arguments getPublicKey {X}.
Arguments getNetwork {X}.

Record Props : Type := {
  onConnect : string -> Index.Page -> Index.Page;
  onDisconnect : Index.Page -> Index.Page
}.

(** The props [Index] mounts the component with. *)
Definition Index_props : Props :=
  {| onConnect := Index.handleConnect; onDisconnect := Index.handleDisconnect |}.

Record World (X : Type) : Type := {
  ui : State;
  ext : X;
  page : Index.Page;
  log : list Effect
}.
Arguments ui {X}.
Arguments ext {X}.
Arguments page {X}.
Arguments log {X}.

Definition msg_no_public_key : string := "Could not retrieve public key from Freighter".
Definition msg_wrong_network : string :=
  "Please switch to Stellar Testnet in Freighter settings".
Definition msg_connect_fallback : string := "Failed to connect wallet".

(** The three views of the render. *)
Inductive View : Type := InstallPrompt | Checking | Main.

Definition view (s : State) : View :=
  match freighterInstalled s with
  | Some false => InstallPrompt
  | None => Checking
  | Some true => Main
  end.

(** [{!networkCorrect && publicKey && ...}] *)
Definition network_warning_shown (s : State) (p : Index.Page) : bool :=
  negb (networkCorrect s) && opt_truthy (Index.publicKey p).


(** [formatAddress]: the first and the last four characters. *)
Definition formatAddress (address : option string) : string :=
  match address with
  | Some a =>
      if truthy a then slice a 0 (Some 4) ++ "..." ++ slice a (-4) None else ""
  | None => ""
  end.

Section Handlers.

Variable X : Type.
Variable api : Freighter X.
Variable props : Props.

Definition emit (e : Effect) : Act (World X) unit :=
  fun w => (Returned tt,
            {| ui := ui w; ext := ext w; page := page w; log := log w ++ [e] |}).

Definition set (u : Update) : Act (World X) unit :=
  fun w => (Returned tt,
            {| ui := apply_update u (ui w); ext := ext w; page := page w;
               log := log w ++ [SetState u] |}).

(** [await f()] on the extension. *)
Definition call {A} (c : Call) (f : X -> outcome A * X) : Act (World X) A :=
  fun w =>
    let '(r, x) := f (ext w) in
    (r, {| ui := ui w; ext := x; page := page w; log := log w ++ [Await c (ui w)] |}).

Definition call_onConnect (pubKey : string) : Act (World X) unit :=
  fun w => (Returned tt,
            {| ui := ui w; ext := ext w; page := onConnect props pubKey (page w);
               log := log w ++ [OnConnect pubKey] |}).

Definition checkNetwork : Act (World X) bool :=
  act_catch
    (network <- call GetNetwork (getNetwork api) ;;
     let isTestnet := String.eqb network "TESTNET" in
     set (SetNetworkCorrect isTestnet) ;;
     act_ret isTestnet)
    (fun err =>
       emit (ConsoleError "Error checking network:" err) ;;
       act_ret false).

Definition connectWallet (silent : bool) : Act (World X) unit :=
  set (SetIsLoading true) ;;
  set (SetError None) ;;
  act_finally
    (act_catch
       (allowed <- call IsAllowed (isAllowed api) ;;
        (if negb allowed then call SetAllowed (setAllowed api) else act_ret tt) ;;
        pubKey <- call GetPublicKey (getPublicKey api) ;;
        match pubKey with
        | Some key =>
            if truthy key then
              isTestnet <- checkNetwork ;;
              if negb isTestnet then
                set (SetError (Some msg_wrong_network)) ;;
                set (SetIsLoading false)
              else call_onConnect key
            else act_throw (new_Error msg_no_public_key)
        | None => act_throw (new_Error msg_no_public_key)
        end)
       (fun err =>
          emit (ConsoleError "Wallet connection error:" err) ;;
          if negb silent then
            set (SetError (Some (or_else (message err) msg_connect_fallback)))
          else act_ret tt))
    (set (SetIsLoading false)).

Definition checkFreighterStatus : Act (World X) unit :=
  act_catch
    (connected <- call IsConnected (isConnected api) ;;
     set (SetFreighterInstalled connected) ;;
     if connected then
       allowed <- call IsAllowed (isAllowed api) ;;
       if allowed then connectWallet true else act_ret tt
     else act_ret tt)
    (fun err =>
       emit (ConsoleError "Error checking Freighter status:" err) ;;
       set (SetFreighterInstalled false)).

Definition disconnectWallet : Act (World X) unit :=
  fun w => (Returned tt,
            {| ui := ui w; ext := ext w; page := onDisconnect props (page w);
               log := log w ++ [OnDisconnect] |}).

(** A handler run from an empty log. *)
Definition fresh (s : State) (x : X) (p : Index.Page) : World X :=
  {| ui := s; ext := x; page := p; log := [] |}.

End Handlers.

Fixpoint awaited (l : list Effect) : list Call :=
  match l with
  | Await c _ :: l' => c :: awaited l'
  | _ :: l' => awaited l'
  | [] => []
  end.

Fixpoint connections (l : list Effect) : list string :=
  match l with
  | OnConnect k :: l' => k :: connections l'
  | _ :: l' => connections l'
  | [] => []
  end.

End WalletConnect.

(** ** src/components/Balance.jsx *)

Module Balance.

Local Open Scope act_scope.

Record State : Type := {
  balance : option string;
  isLoading : bool;
  error : option string;
  lastUpdated : option Z
}.

Inductive Update : Type :=
| SetBalance (v : option string)
| SetIsLoading (v : bool)
| SetError (v : option string)
| SetLastUpdated (v : Z).

Definition apply_update (u : Update) (s : State) : State :=
  match u with
  | SetBalance v =>
      {| balance := v; isLoading := isLoading s; error := error s;
         lastUpdated := lastUpdated s |}
  | SetIsLoading v =>
      {| balance := balance s; isLoading := v; error := error s;
         lastUpdated := lastUpdated s |}
  | SetError v =>
      {| balance := balance s; isLoading := isLoading s; error := v;
         lastUpdated := lastUpdated s |}
  | SetLastUpdated v =>
      {| balance := balance s; isLoading := isLoading s; error := error s;
         lastUpdated := Some v |}
  end.

Inductive Effect : Type :=
| SetState (u : Update)
| Await (publicKey : string) (screen : State)
| ConsoleError (label : string) (err : js_error).

Record World : Type := { ui : State; log : list Effect }.

Definition msg_fetch_fallback : string := "Failed to fetch balance".

(** The regions of the render, for a connected wallet. *)
Definition error_region (s : State) : bool := opt_truthy (error s).




Section Handlers.

(** [getBalance] of [@/stellar/stellarClient], and the clock read by
    [new Date()] when the balance has arrived. *)
Variable getBalance : string -> outcome string.
Variable now : Z.

Definition set (u : Update) : Act World unit :=
  fun w => (Returned tt,
            {| ui := apply_update u (ui w); log := log w ++ [SetState u] |}).

Definition emit (e : Effect) : Act World unit :=
  fun w => (Returned tt, {| ui := ui w; log := log w ++ [e] |}).

Definition await_balance (publicKey : string) : Act World string :=
  fun w => (getBalance publicKey,
            {| ui := ui w; log := log w ++ [Await publicKey (ui w)] |}).

Definition fetchBalance (publicKey : option string) : Act World unit :=
  match publicKey with
  | Some pk =>
      if truthy pk then
        set (SetIsLoading true) ;;
        set (SetError None) ;;
        act_finally
          (act_catch
             (xlmBalance <- await_balance pk ;;
              set (SetBalance (Some xlmBalance)) ;;
              set (SetLastUpdated now))
             (fun err =>
                emit (ConsoleError "Error fetching balance:" err) ;;
                set (SetError (Some (or_else (message err) msg_fetch_fallback))) ;;
                set (SetBalance None)))
          (set (SetIsLoading false))
      else act_ret tt
  | None => act_ret tt
  end.

(** The effect that runs when the key changes. *)
Definition on_key_change (publicKey : option string) : Act World unit :=
  if opt_truthy publicKey then fetchBalance publicKey
  else set (SetBalance None) ;; set (SetError None).

Definition fresh (s : State) : World := {| ui := s; log := [] |}.

End Handlers.

Fixpoint awaited (l : list Effect) : list (string * State) :=
  match l with
  | Await pk scr :: l' => (pk, scr) :: awaited l'
  | _ :: l' => awaited l'
  | [] => []
  end.

End Balance.

(** ** src/components/TransactionHistory.jsx *)

Module TransactionHistory.

Local Open Scope act_scope.

(** A transaction, as the render reads it. *)
Record Tx : Type := {
  id : string;
  hash : option string;
  successful : bool;
  direction : string;
  amount : string;
  timestamp : option string;
  otherParty : option string;
  memo : option string
}.

Record State : Type := {
  transactions : list Tx;
  isLoading : bool;
  error : option string;
  copiedId : option string
}.

Inductive Update : Type :=
| SetTransactions (v : list Tx)
| SetIsLoading (v : bool)
| SetError (v : option string).

Definition apply_update (u : Update) (s : State) : State :=
  match u with
  | SetTransactions v =>
      {| transactions := v; isLoading := isLoading s; error := error s;
         copiedId := copiedId s |}
  | SetIsLoading v =>
      {| transactions := transactions s; isLoading := v; error := error s;
         copiedId := copiedId s |}
  | SetError v =>
      {| transactions := transactions s; isLoading := isLoading s; error := v;
         copiedId := copiedId s |}
  end.

Inductive Effect : Type :=
| SetState (u : Update)
| Await (publicKey : string) (limit : Z) (screen : State)
| ConsoleError (label : string) (err : js_error).

Record World : Type := { ui : State; log : list Effect }.

Definition msg_fetch_fallback : string := "Failed to fetch transaction history".

(** The regions of the render, for a connected wallet. *)
Definition error_region (s : State) : bool := opt_truthy (error s).


Definition empty_region (s : State) : bool :=
  negb (isLoading s) && negb (opt_truthy (error s)) &&
  (length (transactions s) =? 0)%nat.


(** [formatAddress]: the first and the last six characters. *)
Definition formatAddress (address : option string) : string :=
  match address with
  | Some a =>
      if truthy a then slice a 0 (Some 6) ++ "..." ++ slice a (-6) None else ""
  | None => ""
  end.

Section Handlers.

(** [getTransactionHistory] of [@/stellar/stellarClient]. *)
Variable getTransactionHistory : string -> Z -> outcome (list Tx).

Definition set (u : Update) : Act World unit :=
  fun w => (Returned tt,
            {| ui := apply_update u (ui w); log := log w ++ [SetState u] |}).

Definition emit (e : Effect) : Act World unit :=
  fun w => (Returned tt, {| ui := ui w; log := log w ++ [e] |}).



Definition fresh (s : State) : World := {| ui := s; log := [] |}.

End Handlers.

Fixpoint awaited (l : list Effect) : list (string * Z * State) :=
  match l with
  | Await pk n scr :: l' => (pk, n, scr) :: awaited l'
  | _ :: l' => awaited l'
  | [] => []
  end.

End TransactionHistory.

(** ** Concrete environments for the other components *)

Module SampleWallet.

(** An extension whose state is the permission flag. *)
Definition extension (network : string) : WalletConnect.Freighter bool :=
  {| WalletConnect.isConnected := fun x => (Returned true, x);
     WalletConnect.isAllowed := fun x => (Returned x, x);
     WalletConnect.setAllowed := fun _ => (Returned tt, true);
     WalletConnect.getPublicKey := fun x => (Returned (Some Sample.source_key), x);
     WalletConnect.getNetwork := fun x => (Returned network, x) |}.

Definition balance_ok (pk : string) : outcome string := Returned "100.0000000".





End SampleWallet.

(** ** Facts about strings and numbers *)

Lemma truthy_false_iff (s : string) : truthy s = false <-> s = "".
Proof. destruct s; simpl; split; intros H; try reflexivity; discriminate. Qed.

Lemma trimStart_head (s : string) (c : ascii) (t : string) :
  trimStart s = String c t -> is_white_space c = false.
Proof.
  induction s as [|a s IH]; simpl; [discriminate|].
  destruct (is_white_space a) eqn:Ha; [exact IH|].
  intros H. injection H as -> _. exact Ha.
Qed.

Lemma trimStart_empty_iff (s : string) : trimStart s = "" <-> all_white s = true.
Proof.
  induction s as [|a s IH]; simpl; [tauto|].
  destruct (is_white_space a); simpl; [exact IH|].
  split; discriminate.
Qed.

Lemma trimEnd_empty_iff (s : string) : trimEnd s = "" <-> all_white s = true.
Proof.
  induction s as [|a s IH]; simpl; [tauto|].
  destruct (trimEnd s) eqn:Ht.
  - destruct (is_white_space a); simpl.
    + split; intros _; [apply IH|]; reflexivity.
    + split; discriminate.
  - split; [discriminate|].
    intros H. apply andb_true_iff in H. destruct H as [_ H].
    apply IH in H. discriminate.
Qed.

Lemma trim_empty_iff (s : string) : trim s = "" <-> all_white s = true.
Proof.
  unfold trim. rewrite trimEnd_empty_iff. split; intros H.
  - apply trimStart_empty_iff.
    destruct (trimStart s) as [|c t] eqn:Hs; [reflexivity|].
    apply trimStart_head in Hs. simpl in H. rewrite Hs in H. discriminate.
  - apply trimStart_empty_iff in H. rewrite H. reflexivity.
Qed.

(** The source literal [0.0000001] denotes [min_amount]. *)
Lemma min_amount_literal : parseFloat "0.0000001" = min_amount.
Proof. vm_compute. reflexivity. Qed.

Lemma ltb_zero_leb_zero (x : number) : ltb x zero = true -> leb x zero = true.
Proof. unfold leb. intros ->. reflexivity. Qed.

Lemma round_ratio_sign (neg : bool) (p q : Z) :
  round_ratio neg p q = Infinity neg \/
  exists m e, round_ratio neg p q = Finite neg m e.
Proof.
  unfold round_ratio.
  match goal with |- context [let '(m, e) := ?c in _] => destruct c as [m e] end.
  destruct (971 <? e); [left; reflexivity | right; exists m, e; reflexivity].
Qed.

Lemma of_decimal_sign (neg : bool) (d x : Z) :
  of_decimal neg d x = Infinity neg \/
  exists m e, of_decimal neg d x = Finite neg m e.
Proof.
  unfold of_decimal. destruct (d =? 0).
  - right. exists 0, 0. reflexivity.
  - destruct (0 <=? x); apply round_ratio_sign.
Qed.

(** A literal with a minus sign never denotes a positive number. *)
Lemma minus_sign_not_positive (l : option literal) :
  (isNaN (to_number true l) || leb (to_number true l) zero)%bool = true.
Proof.
  destruct l as [[|d x]|]; simpl; try reflexivity.
  destruct (of_decimal_sign true d x) as [E|(m & e & E)]; rewrite E; simpl.
  - reflexivity.
  - unfold leb, ltb, eqb, zero. simpl. destruct (m =? 0); reflexivity.
Qed.

Lemma parseFloat_scan (a : string) :
  parseFloat a = to_number (fst (scan a)) (snd (scan a)).
Proof. unfold parseFloat. destruct (scan a). reflexivity. Qed.

Lemma scan_minus_not_blank (a : string) : fst (scan a) = true -> trim a <> "".
Proof.
  intros H E. apply trim_empty_iff, trimStart_empty_iff in E.
  unfold scan in H. rewrite E in H. discriminate H.
Qed.

(** A few conversions, as a JavaScript engine computes them. *)
Example parseFloat_tenth : parseFloat "0.1" = Finite false 7205759403792794 (-56).
Proof. vm_compute. reflexivity. Qed.

Example parseFloat_prefix : parseFloat "  -1.5e3xyz" = Finite true 6597069766656000 (-42).
Proof. vm_compute. reflexivity. Qed.

Example parseFloat_tie_to_even :
  parseFloat "9007199254740993" = Finite false 4503599627370496 1.
Proof. vm_compute. reflexivity. Qed.

Example parseFloat_overflow : parseFloat "1e400" = Infinity false.
Proof. vm_compute. reflexivity. Qed.

Example parseFloat_not_a_number : parseFloat "abc" = NaN /\ parseFloat "." = NaN.
Proof. vm_compute. split; reflexivity. Qed.


(** ** Facts about [validateInputs] *)

Section ValidationFacts.

Variable env : Imports.
Variable props : Props.


(** [validateInputs] throws the message of the first rule that is
    broken, and returns [true] when none is. *)
Lemma validateInputs_first_violation (d a : string) :
  validateInputs env props d a =
  match first_violation env props d a with
  | Some v => Thrown (new_Error (violation_message v))
  | None => Returned true
  end.
Proof.
  unfold validateInputs, first_violation, violates, find.
  destruct (negb (truthy (trim d))); [reflexivity|].
  destruct (negb (isValidPublicKey env (trim d))); [reflexivity|].
  destruct (String.eqb (trim d) (publicKey props)); [reflexivity|].
  destruct (negb (truthy (trim a))); [reflexivity|].
  cbv zeta.
  destruct (isNaN (parseFloat a) || leb (parseFloat a) zero)%bool; [reflexivity|].
  destruct (ltb (parseFloat a) min_amount); reflexivity.
Qed.

Lemma first_violation_broken (d a : string) (v : Violation) :
  first_violation env props d a = Some v -> violates env props v d a = true.
Proof.
  unfold first_violation. intros H.
  apply find_some in H. exact (proj2 H).
Qed.

Lemma broken_first_violation (d a : string) (v : Violation) :
  violates env props v d a = true -> exists v', first_violation env props d a = Some v'.
Proof.
  intros H. destruct (first_violation env props d a) as [v'|] eqn:E; [exists v'; reflexivity|].
  unfold first_violation in E.
  pose proof (find_none _ _ E v) as N. cbv beta in N.
  rewrite H in N. 
  assert (In v [DestinationMissing; DestinationInvalid; SelfSend;
                AmountMissing; AmountNotPositive; AmountBelowMinimum])
    by (destruct v; simpl; tauto).
  specialize (N H0). discriminate.
Qed.

Lemma validate_total (d a : string) :
  validateInputs env props d a = Returned true \/
  exists v, violates env props v d a = true /\ validateInputs env props d a = Thrown (new_Error (violation_message v)).
Proof.
  rewrite validateInputs_first_violation.
  destruct (first_violation env props d a) as [v|] eqn:E; [right|left; reflexivity].
  exists v. split; [apply first_violation_broken; exact E | reflexivity].
Qed.

End ValidationFacts.

(** ** The runs of [handleSendPayment] *)

Section Runs.

Variable env : Imports.
Variable props : Props.

Lemma invoke_validation_throws (s : State) (key : Z) (err : js_error) :
  validateInputs env props (destination s) (amount s) = Thrown err ->
  invoke env props s key =
  {| ui := failed_with s err; balanceRefreshKey := key;
     log := [SetState (SetError None); SetState (SetSuccess None)] ++ caught err |}.
Proof.
  intros H. unfold invoke, handleSendPayment, try_catch_finally, bind, lift.
  cbn [set fresh ui log balanceRefreshKey snd fst]. rewrite H. reflexivity.
Qed.

Lemma invoke_build_throws (s : State) (key : Z) (err : js_error) :
  validateInputs env props (destination s) (amount s) = Returned true ->
  build_of env props s = Thrown err ->
  invoke env props s key =
  {| ui := failed_with s err; balanceRefreshKey := key;
     log := prologue ++ [Await (build_call props s) (in_progress s "signing")] ++ caught err |}.
Proof.
  intros H B. unfold build_of in B.
  unfold invoke, handleSendPayment, try_catch_finally, bind, lift, await.
  cbn [set fresh ui log balanceRefreshKey snd fst]. rewrite H.
  cbn [set fresh ui log balanceRefreshKey snd fst]. rewrite B. reflexivity.
Qed.

Lemma invoke_sign_throws (s : State) (key : Z) (xdr : string) (err : js_error) :
  validateInputs env props (destination s) (amount s) = Returned true ->
  build_of env props s = Returned xdr ->
  sign_of env props xdr = Thrown err ->
  invoke env props s key =
  {| ui := failed_with s err; balanceRefreshKey := key;
     log := prologue ++
            [Await (build_call props s) (in_progress s "signing");
             Await (sign_call env props xdr) (in_progress s "signing")] ++ caught err |}.
Proof.
  intros H B G. unfold build_of in B. unfold sign_of in G.
  unfold invoke, handleSendPayment, try_catch_finally, bind, lift, await.
  cbn [set fresh ui log balanceRefreshKey snd fst]. rewrite H.
  cbn [set fresh ui log balanceRefreshKey snd fst]. rewrite B.
  cbn [set fresh ui log balanceRefreshKey snd fst]. rewrite G. reflexivity.
Qed.

Lemma invoke_sign_cancelled (s : State) (key : Z) (xdr : string) (signed : option string) :
  validateInputs env props (destination s) (amount s) = Returned true ->
  build_of env props s = Returned xdr ->
  sign_of env props xdr = Returned signed ->
  signed_truthy signed = false ->
  invoke env props s key =
  {| ui := failed_with s (new_Error msg_signing_cancelled); balanceRefreshKey := key;
     log := prologue ++
            [Await (build_call props s) (in_progress s "signing");
             Await (sign_call env props xdr) (in_progress s "signing")] ++
            caught (new_Error msg_signing_cancelled) |}.
Proof.
  intros H B G T. unfold build_of in B. unfold sign_of in G.
  unfold invoke, handleSendPayment, try_catch_finally, bind, lift, await.
  cbn [set fresh ui log balanceRefreshKey snd fst]. rewrite H.
  cbn [set fresh ui log balanceRefreshKey snd fst]. rewrite B.
  cbn [set fresh ui log balanceRefreshKey snd fst]. rewrite G.
  destruct signed as [x|]; [simpl in T; rewrite T|]; reflexivity.
Qed.

Lemma invoke_submit_throws (s : State) (key : Z) (xdr signed : string) (err : js_error) :
  validateInputs env props (destination s) (amount s) = Returned true ->
  build_of env props s = Returned xdr ->
  sign_of env props xdr = Returned (Some signed) ->
  truthy signed = true ->
  submitTransaction env signed = Thrown err ->
  invoke env props s key =
  {| ui := failed_with s err; balanceRefreshKey := key;
     log := prologue ++
            [Await (build_call props s) (in_progress s "signing");
             Await (sign_call env props xdr) (in_progress s "signing");
             SetState (SetStep "submitting");
             Await (Submit signed) (in_progress s "submitting")] ++ caught err |}.
Proof.
  intros H B G T U. unfold build_of in B. unfold sign_of in G.
  unfold invoke, handleSendPayment, try_catch_finally, bind, lift, await.
  cbn [set fresh ui log balanceRefreshKey snd fst]. rewrite H.
  cbn [set fresh ui log balanceRefreshKey snd fst]. rewrite B.
  cbn [set fresh ui log balanceRefreshKey snd fst]. rewrite G, T.
  cbn [set fresh ui log balanceRefreshKey snd fst]. rewrite U. reflexivity.
Qed.

Lemma invoke_submitted (s : State) (key : Z) (xdr signed : string) (r : SubmitResult) :
  validateInputs env props (destination s) (amount s) = Returned true ->
  build_of env props s = Returned xdr ->
  sign_of env props xdr = Returned (Some signed) ->
  truthy signed = true ->
  submitTransaction env signed = Returned r ->
  let info := {| hash := result_hash r; explorerUrl := getExplorerUrl env (result_hash r) |} in
  invoke env props s key =
  {| ui := succeeded_with info;
     balanceRefreshKey :=
       match onTransactionComplete props with Some f => f key | None => key end;
     log := prologue ++
            [Await (build_call props s) (in_progress s "signing");
             Await (sign_call env props xdr) (in_progress s "signing");
             SetState (SetStep "submitting");
             Await (Submit signed) (in_progress s "submitting");
             SetState (SetSuccess (Some info));
             SetState (SetDestination ""); SetState (SetAmount "")] ++
            match onTransactionComplete props with Some _ => [Notify] | None => [] end ++
            [SetState (SetIsLoading false); SetState (SetStep "input")] |}.
Proof.
  intros H B G T U. unfold build_of in B. unfold sign_of in G.
  unfold invoke, handleSendPayment, try_catch_finally, bind, lift, await.
  cbn [set fresh ui log balanceRefreshKey snd fst]. rewrite H.
  cbn [set fresh ui log balanceRefreshKey snd fst]. rewrite B.
  cbn [set fresh ui log balanceRefreshKey snd fst]. rewrite G, T.
  cbn [set fresh ui log balanceRefreshKey snd fst]. rewrite U.
  destruct (onTransactionComplete props); reflexivity.
Qed.

(** Every invocation terminates, in one of the six ways. *)
Lemma invoke_ends (s : State) (key : Z) : Ends env props s key (invoke env props s key).
Proof.
  destruct (validate_total env props (destination s) (amount s))
    as [V | (v & _ & V)].
  2:{ rewrite (invoke_validation_throws s key _ V). apply EndsInvalid. exact V. }
  destruct (build_of env props s) as [xdr|err] eqn:B.
  2:{ rewrite (invoke_build_throws s key _ V B). apply EndsBuildFailed; assumption. }
  destruct (sign_of env props xdr) as [signed|err] eqn:G.
  2:{ rewrite (invoke_sign_throws s key _ _ V B G). eapply EndsSignFailed; eassumption. }
  destruct (signed_truthy signed) eqn:T.
  2:{ rewrite (invoke_sign_cancelled s key _ _ V B G T). eapply EndsCancelled; eassumption. }
  destruct signed as [sx|]; [simpl in T | discriminate T].
  destruct (submitTransaction env sx) as [r|err] eqn:U.
  - rewrite (invoke_submitted s key _ _ _ V B G T U). eapply EndsSubmitted; eassumption.
  - rewrite (invoke_submit_throws s key _ _ _ V B G T U). eapply EndsSubmitFailed; eassumption.
Qed.

End Runs.

(** ** The payment flow *)

(** Splits a goal about [invoke] into the six ways a run can end. *)
Ltac run_cases env props s key :=
  let R := fresh "R" in
  pose proof (invoke_ends env props s key) as R;
  remember (invoke env props s key) as w' in *;
  match goal with E : w' = _ |- _ => clear E end;
  destruct R.

(** Decides membership of an effect in an explicit log. *)
Ltac in_log H :=
  unfold prologue, caught in H; simpl in H;
  repeat (destruct H as [H|H]; try discriminate H); try contradiction.

Section Flow.

Variable env : Imports.
Variable props : Props.

(** C1 (as amended).  When validation and the build succeed and the signer
    resolves to no signature, the flow ends like any failure: the error
    "Transaction signing was cancelled" is stored and its banner shown, no
    success is recorded, nothing is submitted, the step is back to "input",
    loading is off and the two fields keep what the user entered. *)
Theorem C1_cancelled_signature_is_reported
    (s : State) (key : Z) (xdr : string) (signed : option string) :
  validateInputs env props (destination s) (amount s) = Returned true ->
  build_of env props s = Returned xdr ->
  sign_of env props xdr = Returned signed ->
  signed_truthy signed = false ->
  let w := invoke env props s key in
  error (ui w) = Some msg_signing_cancelled /\
  error_banner_shown (ui w) = true /\
  success (ui w) = None /\
  step (ui w) = "input" /\ isLoading (ui w) = false /\
  destination (ui w) = destination s /\ amount (ui w) = amount s /\
  awaited (log w) = [build_call props s; sign_call env props xdr] /\
  balanceRefreshKey w = key.
Proof.
  intros V B G T w. subst w.
  rewrite (invoke_sign_cancelled env props s key xdr signed V B G T).
  repeat split; reflexivity.
Qed.

(** C2 (as amended).  The flow tracks three steps only, "input", "signing"
    and "submitting".  The step updates of an invocation are ["input"],
    ["signing"; "input"] or ["signing"; "submitting"; "input"]; the build
    and the signature are both awaited under the step "signing", the
    submission under "submitting"; every invocation ends with the step
    "input" and loading off. *)
Theorem C2_steps_of_an_invocation (s : State) (key : Z) :
  let w := invoke env props s key in
  (step_updates (log w) = ["input"] \/
   step_updates (log w) = ["signing"; "input"] \/
   step_updates (log w) = ["signing"; "submitting"; "input"]) /\
  (forall c st, In (c, st) (steps_on_screen (log w)) ->
     st = match c with
          | Build _ _ _ => "signing"
          | Sign _ _ => "signing"
          | Submit _ => "submitting"
          end) /\
  step (ui w) = "input" /\ isLoading (ui w) = false.
Proof.
  intros w. subst w. run_cases env props s key.
  - split; [left; reflexivity|]. split; [|split; reflexivity].
    intros c st Hin. simpl in Hin. contradiction.
  - split; [right; left; reflexivity|]. split; [|split; reflexivity].
    intros c st Hin. simpl in Hin. destruct Hin as [Hin|[]].
    injection Hin as <- <-. reflexivity.
  - split; [right; left; reflexivity|]. split; [|split; reflexivity].
    intros c st Hin. simpl in Hin. destruct Hin as [Hin|[Hin|[]]];
      injection Hin as <- <-; reflexivity.
  - split; [right; left; reflexivity|]. split; [|split; reflexivity].
    intros c st Hin. simpl in Hin. destruct Hin as [Hin|[Hin|[]]];
      injection Hin as <- <-; reflexivity.
  - split; [right; right; reflexivity|]. split; [|split; reflexivity].
    intros c st Hin. simpl in Hin. destruct Hin as [Hin|[Hin|[Hin|[]]]];
      injection Hin as <- <-; reflexivity.
  - split.
    { right; right. destruct (onTransactionComplete props); reflexivity. }
    split; [|split; reflexivity].
    intros c st Hin.
    assert (H' : In (c, st)
              [(build_call props s, "signing"); (sign_call env props xdr, "signing");
               (Submit signed, "submitting")])
      by (destruct (onTransactionComplete props); exact Hin).
    simpl in H'. destruct H' as [H'|[H'|[H'|[]]]];
      injection H' as <- <-; reflexivity.
Qed.

(** C3.  In the component as the page mounts it, an invocation whose
    submission resolves with a result (a transaction hash) ends in success:
    the hash and its explorer link are stored and shown, no error is
    stored, the destination and amount fields are empty, and the page's
    balance-refresh callback has been called exactly once. *)
Theorem C3_success_clears_form_and_notifies_once
    (pk : string) (s : State) (key : Z)
    (signed : string) (scr : State) (r : SubmitResult) :
  let w := invoke env (Index_props pk) s key in
  In (Await (Submit signed) scr) (log w) ->
  submitTransaction env signed = Returned r ->
  success (ui w) =
    Some {| hash := result_hash r; explorerUrl := getExplorerUrl env (result_hash r) |} /\
  success_banner_shown (ui w) = true /\
  error (ui w) = None /\
  destination (ui w) = "" /\ amount (ui w) = "" /\
  notifications (log w) = 1%nat /\
  balanceRefreshKey w = handleTransactionComplete key.
Proof.
  intros w Hin Hr. subst w. run_cases env (Index_props pk) s key.
  - in_log Hin.
  - in_log Hin.
  - in_log Hin.
  - in_log Hin.
  - in_log Hin. injection Hin as <- _. congruence.
  - in_log Hin. injection Hin as <- _.
    assert (r0 = r) by congruence. subst r0.
    repeat split; reflexivity.
Qed.

(** C4.  An invocation that ends with an error stored (validation, build,
    signing or submission failure) never calls the setters of the
    destination and amount fields: both fields end with the values the
    user entered. *)
Theorem C4_failure_keeps_fields (s : State) (key : Z) :
  let w := invoke env props s key in
  error (ui w) <> None ->
  destination (ui w) = destination s /\
  amount (ui w) = amount s /\
  forallb (fun e => negb (is_field_update e)) (log w) = true.
Proof.
  intros w Herr. subst w. run_cases env props s key;
    try (repeat split; reflexivity).
  exfalso. apply Herr. reflexivity.
Qed.


Lemma parseFloat_blank (a : string) : trim a = "" -> parseFloat a = NaN.
Proof.
  intros H. apply trim_empty_iff, trimStart_empty_iff in H.
  unfold parseFloat, scan. rewrite H. reflexivity.
Qed.

Lemma amount_missing_is_NaN (d a : string) :
  violates env props AmountMissing d a = true -> parseFloat a = NaN.
Proof.
  simpl. intros H. apply parseFloat_blank, truthy_false_iff.
  destruct (truthy (trim a)); [discriminate H | reflexivity].
Qed.

(** When the destination passes its three rules, the first broken rule is
    the first broken amount rule. *)
Lemma first_violation_of_amount (d a : string) :
  violates env props DestinationMissing d a = false ->
  violates env props DestinationInvalid d a = false ->
  violates env props SelfSend d a = false ->
  first_violation env props d a =
  if violates env props AmountMissing d a then Some AmountMissing
  else if violates env props AmountNotPositive d a then Some AmountNotPositive
  else if violates env props AmountBelowMinimum d a then Some AmountBelowMinimum
  else None.
Proof.
  intros H1 H2 H3. unfold first_violation, find.
  rewrite H1, H2, H3. reflexivity.
Qed.

(** C6.  The amount "0", every amount written with a minus sign, every
    amount that parses to a negative number and the amount "0.00000005"
    all fail validation: the invocation ends with
    the error of the first broken rule and makes no call to build, sign or
    submit.  When the destination passes its own rules that error is
    "Amount must be a positive number" for "0" and the negative amounts and
    "Amount is below minimum (0.0000001 XLM)" for "0.00000005". *)
Theorem C6_zero_negative_and_tiny_amounts_fail (s : State) (key : Z) :
  amount s = "0" \/
  fst (scan (amount s)) = true \/
  ltb (parseFloat (amount s)) zero = true \/
  amount s = "0.00000005" ->
  let w := invoke env props s key in
  exists v,
    validateInputs env props (destination s) (amount s) =
      Thrown (new_Error (violation_message v)) /\
    error (ui w) = Some (violation_message v) /\
    awaited (log w) = [] /\
    (violates env props DestinationMissing (destination s) (amount s) = false ->
     violates env props DestinationInvalid (destination s) (amount s) = false ->
     violates env props SelfSend (destination s) (amount s) = false ->
     v = if String.eqb (amount s) "0.00000005"
         then AmountBelowMinimum else AmountNotPositive).
Proof.
  intros Ha w. subst w.
  set (d := destination s) in *. set (a := amount s) in *.
  assert (Hrule :
    violates env props AmountMissing d a = false /\
    if String.eqb a "0.00000005"
    then violates env props AmountNotPositive d a = false /\
         violates env props AmountBelowMinimum d a = true
    else violates env props AmountNotPositive d a = true).
  { destruct Ha as [Ha|[Ha|[Ha|Ha]]].
    - rewrite Ha. vm_compute. split; reflexivity.
    - assert (Hm : violates env props AmountMissing d a = false).
      { simpl. apply negb_false_iff.
        destruct (truthy (trim a)) eqn:E; [reflexivity|].
        apply truthy_false_iff in E. exact (False_ind _ (scan_minus_not_blank a Ha E)). }
      split; [exact Hm|].
      destruct (String.eqb_spec a "0.00000005") as [E|_].
      { rewrite E in Ha. vm_compute in Ha. discriminate Ha. }
      simpl. rewrite parseFloat_scan, Ha. apply minus_sign_not_positive.
    - assert (Hm : violates env props AmountMissing d a = false).
      { destruct (violates env props AmountMissing d a) eqn:E; [|reflexivity].
        apply amount_missing_is_NaN in E. rewrite E in Ha. discriminate Ha. }
      split; [exact Hm|].
      destruct (String.eqb_spec a "0.00000005") as [E|_].
      { rewrite E in Ha. vm_compute in Ha. discriminate Ha. }
      simpl. rewrite (ltb_zero_leb_zero _ Ha). apply orb_true_r.
    - rewrite Ha. vm_compute. repeat split; reflexivity. }
  destruct Hrule as [Hm Hrule].
  assert (Hv : exists u, violates env props u d a = true).
  { destruct (String.eqb a "0.00000005").
    - exists AmountBelowMinimum. exact (proj2 Hrule).
    - exists AmountNotPositive. exact Hrule. }
  destruct Hv as [u Hu].
  destruct (broken_first_violation env props _ _ _ Hu) as [v F].
  exists v.
  pose proof (validateInputs_first_violation env props d a) as V.
  rewrite F in V. split; [exact V|].
  rewrite (invoke_validation_throws env props s key _ V).
  cbn [ui log error failed_with message new_Error app caught awaited].
  split; [destruct v; reflexivity|].
  split; [reflexivity|].
  intros H1 H2 H3.
  rewrite (first_violation_of_amount d a H1 H2 H3), Hm in F.
  destruct (String.eqb a "0.00000005").
  - destruct Hrule as [Hn Hb]. rewrite Hn, Hb in F. congruence.
  - rewrite Hrule in F. congruence.
Qed.


(** C8.  Whenever the handler is suspended (on the build, the signature or
    the submission), the state on screen has loading on, so the submit
    control is disabled and submitting the form from that screen starts
    nothing. *)
Theorem C8_submit_disabled_while_in_progress
    (s : State) (key : Z) (c : Call) (scr : State) :
  In (Await c scr) (log (invoke env props s key)) ->
  isLoading scr = true /\
  submit_disabled scr = true /\
  forall w, ui w = scr -> submit_form env props w = (Returned tt, w).
Proof.
  intros Hin.
  assert (L : isLoading scr = true).
  { run_cases env props s key; try (in_log Hin; injection Hin as _ <-; reflexivity).
    destruct (onTransactionComplete props);
      in_log Hin; injection Hin as _ <-; reflexivity. }
  assert (D : submit_disabled scr = true) by (unfold submit_disabled; rewrite L; reflexivity).
  split; [exact L|]. split; [exact D|].
  intros w Hw. unfold submit_form. rewrite Hw, D. reflexivity.
Qed.

(** C10 (as amended).  While the destination or the amount is the empty
    string the submit control is disabled.  With the control enabled, the
    error "Destination address is required" is still raised when the
    destination is non-empty but all white space, and only then; likewise
    "Amount is required" is raised only for a non-empty amount that is all
    white space. *)
Theorem C10_required_errors_need_blank_fields (s : State) :
  (destination s = "" \/ amount s = "" -> submit_disabled s = true) /\
  (submit_disabled s = false ->
   (validateInputs env props (destination s) (amount s) =
      Thrown (new_Error msg_destination_required) <->
    all_white (destination s) = true) /\
   destination s <> "" /\ amount s <> "" /\
   (validateInputs env props (destination s) (amount s) =
      Thrown (new_Error msg_amount_required) ->
    all_white (amount s) = true)).
Proof.
  split.
  - unfold submit_disabled. intros [H|H]; rewrite H; simpl.
    + rewrite orb_true_r. reflexivity.
    + apply orb_true_r.
  - unfold submit_disabled. intros H.
    apply orb_false_iff in H. destruct H as [H Ha].
    apply orb_false_iff in H. destruct H as [_ Hd].
    apply negb_false_iff in Ha, Hd.
    split; [|split; [|split]].
    + rewrite <- trim_empty_iff, <- truthy_false_iff.
      unfold validateInputs.
      destruct (truthy (trim (destination s))); simpl.
      * split; [|discriminate].
        destruct (isValidPublicKey env (trim (destination s))); simpl;
          [|discriminate].
        destruct (String.eqb (trim (destination s)) (publicKey props));
          [discriminate|].
        destruct (truthy (trim (amount s))); simpl; [|discriminate].
        destruct (isNaN (parseFloat (amount s)) || leb (parseFloat (amount s)) zero)%bool;
          [discriminate|].
        destruct (ltb (parseFloat (amount s)) min_amount); discriminate.
      * split; reflexivity.
    + intros E. rewrite E in Hd. discriminate Hd.
    + intros E. rewrite E in Ha. discriminate Ha.
    + rewrite <- trim_empty_iff, <- truthy_false_iff.
      unfold validateInputs.
      destruct (truthy (trim (destination s))); simpl; [|discriminate].
      destruct (isValidPublicKey env (trim (destination s))); simpl;
        [|discriminate].
      destruct (String.eqb (trim (destination s)) (publicKey props));
        [discriminate|].
      destruct (truthy (trim (amount s))); simpl; [|reflexivity].
      destruct (isNaN (parseFloat (amount s)) || leb (parseFloat (amount s)) zero)%bool;
        [discriminate|].
      destruct (ltb (parseFloat (amount s)) min_amount); discriminate.
Qed.

End Flow.

(** C9.  The address validator answers [true] or [false] on every string,
    and answers [false] on the empty string, on a string whose length is
    not 56, on a string that does not start with G and on a string whose
    checksum encoding is malformed. *)
Theorem C9_address_validator_rejects (checksum_ok : string -> bool) (s : string) :
  s = "" \/ String.length s <> 56%nat \/ prefix "G" s = false \/ checksum_ok s = false ->
  (AddressValidator checksum_ok s = true \/ AddressValidator checksum_ok s = false) /\
  AddressValidator checksum_ok s = false.
Proof.
  intros H.
  assert (R : AddressValidator checksum_ok s = false).
  { unfold AddressValidator. destruct H as [H|[H|[H|H]]].
    - rewrite H. reflexivity.
    - apply Nat.eqb_neq in H. rewrite H. reflexivity.
    - rewrite H. apply andb_false_iff. left. apply andb_false_r.
    - rewrite H. apply andb_false_r. }
  split; [right|]; exact R.
Qed.

(** ** The claims at concrete inputs *)

(** A declined signature leaves an error on screen: the run of a valid
    form against a signer that resolves to null ends with the error
    "Transaction signing was cancelled" stored and its banner shown. *)
Lemma C1_counterexample :
  validateInputs Sample.declined Sample.props Sample.dest_key "1.5" = Returned true /\
  build_of Sample.declined Sample.props Sample.filled
    = Returned "unsigned:GBBBBBBBBBBBBBBBBBBBBBBBBBBBBBBBBBBBBBBBBBBBBBBBBBBBBBBB:1.5" /\
  sign_of Sample.declined Sample.props
    "unsigned:GBBBBBBBBBBBBBBBBBBBBBBBBBBBBBBBBBBBBBBBBBBBBBBBBBBBBBBB:1.5" = Returned None /\
  error (ui (invoke Sample.declined Sample.props Sample.filled 0))
    = Some "Transaction signing was cancelled" /\
  error_banner_shown (ui (invoke Sample.declined Sample.props Sample.filled 0)) = true.
Proof. vm_compute. repeat split; reflexivity. Qed.

Lemma C1_witness :
  error (ui (invoke Sample.declined Sample.props Sample.filled 0)) = Some msg_signing_cancelled.
Proof.
  refine (proj1 (C1_cancelled_signature_is_reported Sample.declined Sample.props
                   Sample.filled 0
                   "unsigned:GBBBBBBBBBBBBBBBBBBBBBBBBBBBBBBBBBBBBBBBBBBBBBBBBBBBBBBB:1.5"
                   None _ _ _ _));
    vm_compute; reflexivity.
Defined.

(** No distinct building step: in a run where everything succeeds the
    build is awaited under the same step, "signing", as the signature, and
    the step is never set to anything but "signing", "submitting" and
    "input"; and a run on an empty destination only sets the step to
    "input" and awaits nothing. *)
Lemma C2_counterexample :
  steps_on_screen (log (invoke Sample.all_ok Sample.props Sample.filled 0)) =
    [(Build Sample.source_key Sample.dest_key "1.5", "signing");
     (Sign "unsigned:GBBBBBBBBBBBBBBBBBBBBBBBBBBBBBBBBBBBBBBBBBBBBBBBBBBBBBBB:1.5"
           {| network := "TESTNET"; networkPassphrase := Sample.passphrase;
              accountToSign := Sample.source_key |}, "signing");
     (Submit "signed:unsigned:GBBBBBBBBBBBBBBBBBBBBBBBBBBBBBBBBBBBBBBBBBBBBBBBBBBBBBBB:1.5",
      "submitting")] /\
  step_updates (log (invoke Sample.all_ok Sample.props Sample.filled 0)) =
    ["signing"; "submitting"; "input"] /\
  step_updates (log (invoke Sample.all_ok Sample.props (Sample.form "" "1.5") 0)) = ["input"] /\
  awaited (log (invoke Sample.all_ok Sample.props (Sample.form "" "1.5") 0)) = [].
Proof. vm_compute. repeat split; reflexivity. Qed.

Lemma C2_witness :
  step (ui (invoke Sample.no_account Sample.props Sample.filled 0)) = "input" /\
  isLoading (ui (invoke Sample.no_account Sample.props Sample.filled 0)) = false.
Proof.
  exact (proj2 (proj2 (C2_steps_of_an_invocation Sample.no_account Sample.props
                         Sample.filled 0))).
Defined.

Lemma C3_witness :
  success (ui (invoke Sample.all_ok (Index_props Sample.source_key) Sample.filled 0)) =
    Some {| hash := "abc123";
            explorerUrl := "https://stellar.expert/explorer/testnet/tx/abc123" |} /\
  notifications (log (invoke Sample.all_ok (Index_props Sample.source_key) Sample.filled 0)) = 1%nat.
Proof.
  pose proof (C3_success_clears_form_and_notifies_once Sample.all_ok
                Sample.source_key Sample.filled 0
                "signed:unsigned:GBBBBBBBBBBBBBBBBBBBBBBBBBBBBBBBBBBBBBBBBBBBBBBBBBBBBBBB:1.5"
                (in_progress Sample.filled "submitting")
                {| result_hash := "abc123" |}) as H.
  cbv zeta in H.
  assert (Hin : In (Await (Submit
             "signed:unsigned:GBBBBBBBBBBBBBBBBBBBBBBBBBBBBBBBBBBBBBBBBBBBBBBBBBBBBBBB:1.5")
             (in_progress Sample.filled "submitting"))
           (log (invoke Sample.all_ok (Index_props Sample.source_key) Sample.filled 0))).
  { vm_compute. do 7 right. left. reflexivity. }
  specialize (H Hin eq_refl).
  split; [exact (proj1 H) | exact (proj1 (proj2 (proj2 (proj2 (proj2 (proj2 H))))))].
Defined.

Lemma C4_witness :
  destination (ui (invoke Sample.no_account Sample.props Sample.filled 0)) = Sample.dest_key /\
  amount (ui (invoke Sample.no_account Sample.props Sample.filled 0)) = "1.5".
Proof.
  pose proof (C4_failure_keeps_fields Sample.no_account Sample.props Sample.filled 0) as H.
  cbv zeta in H.
  assert (E : error (ui (invoke Sample.no_account Sample.props Sample.filled 0)) <> None)
    by (vm_compute; discriminate).
  specialize (H E). split; [exact (proj1 H) | exact (proj1 (proj2 H))].
Defined.


Lemma C6_witness :
  error (ui (invoke Sample.all_ok Sample.props (Sample.form Sample.dest_key "-5") 0))
    = Some "Amount must be a positive number" /\
  awaited (log (invoke Sample.all_ok Sample.props (Sample.form Sample.dest_key "-5") 0))
    = [].
Proof.
  assert (N : amount (Sample.form Sample.dest_key "-5") = "0" \/
              fst (scan (amount (Sample.form Sample.dest_key "-5"))) = true \/
              ltb (parseFloat (amount (Sample.form Sample.dest_key "-5"))) zero = true \/
              amount (Sample.form Sample.dest_key "-5") = "0.00000005")
    by (right; left; vm_compute; reflexivity).
  pose proof (C6_zero_negative_and_tiny_amounts_fail Sample.all_ok Sample.props
                (Sample.form Sample.dest_key "-5") 0 N) as H.
  cbv zeta in H. destruct H as (v & _ & E & A & S).
  assert (v = AmountNotPositive) by (apply S; vm_compute; reflexivity). subst v.
  split; [exact E | exact A].
Defined.



Lemma C8_witness :
  submit_disabled (in_progress Sample.filled "signing") = true.
Proof.
  refine (proj1 (proj2 (C8_submit_disabled_while_in_progress Sample.all_ok Sample.props
                          Sample.filled 0
                          (build_call Sample.props Sample.filled)
                          (in_progress Sample.filled "signing") _))).
  vm_compute. do 4 right. left. reflexivity.
Defined.

Lemma C9_witness :
  AddressValidator (fun _ => true) "" = false /\
  AddressValidator (fun _ => true) "GABC" = false.
Proof.
  split.
  - apply (C9_address_validator_rejects (fun _ => true) ""). left. reflexivity.
  - apply (C9_address_validator_rejects (fun _ => true) "GABC").
    right; left. vm_compute. discriminate.
Defined.

(** A destination of one space keeps the submit control enabled, and
    submitting it raises "Destination address is required". *)
Lemma C10_counterexample :
  submit_disabled (Sample.form " " "1") = false /\
  error (ui (snd (submit_form Sample.all_ok Sample.props (fresh (Sample.form " " "1") 0))))
    = Some "Destination address is required".
Proof. vm_compute. split; reflexivity. Qed.

Lemma C10_witness :
  submit_disabled (Sample.form "" "1") = true /\
  validateInputs Sample.all_ok Sample.props " " "1"
    = Thrown (new_Error msg_destination_required).
Proof.
  split.
  - apply (proj1 (C10_required_errors_need_blank_fields Sample.all_ok Sample.props
                    (Sample.form "" "1"))).
    left. reflexivity.
  - apply (proj1 (proj2 (C10_required_errors_need_blank_fields Sample.all_ok Sample.props
                           (Sample.form " " "1")) eq_refl)).
    reflexivity.
Defined.

(** ** More about trimming and parsing *)

Lemma white_not_digit (c : ascii) : is_white_space c = true -> is_digit c = false.
Proof. destruct c as [[] [] [] [] [] [] [] []]; vm_compute; intros H; congruence. Qed.

Lemma trimStart_fixed (c : ascii) (t : string) :
  is_white_space c = false -> trimStart (String c t) = String c t.
Proof. intros H. simpl. rewrite H. reflexivity. Qed.

Lemma trimEnd_idempotent (t : string) : trimEnd (trimEnd t) = trimEnd t.
Proof.
  induction t as [|c t IH]; [reflexivity|].
  simpl. destruct (trimEnd t) as [|d u] eqn:E.
  - destruct (is_white_space c) eqn:W; [reflexivity|].
    simpl. rewrite W. reflexivity.
  - change (trimEnd (String c (String d u))) with
      (match trimEnd (String d u) with
       | EmptyString => if is_white_space c then EmptyString else String c EmptyString
       | x => String c x end).
    rewrite IH. reflexivity.
Qed.

Lemma trimEnd_split (t : string) :
  exists w, all_white w = true /\ t = trimEnd t ++ w.
Proof.
  induction t as [|c t (w & W & E)].
  - exists "". split; reflexivity.
  - simpl. destruct (trimEnd t) as [|d u] eqn:T.
    + destruct (is_white_space c) eqn:C.
      * exists (String c t). split; [|reflexivity].
        simpl. rewrite C. apply trimEnd_empty_iff. exact T.
      * exists w. split; [exact W|]. simpl. simpl in E. rewrite <- E. reflexivity.
    + exists w. split; [exact W|]. simpl. simpl in E. rewrite <- E. reflexivity.
Qed.

Lemma trimEnd_head (c : ascii) (t : string) :
  is_white_space c = false -> exists u, trimEnd (String c t) = String c u.
Proof.
  intros H. simpl. destruct (trimEnd t).
  - rewrite H. eexists; reflexivity.
  - eexists; reflexivity.
Qed.

Lemma trim_idempotent (s : string) : trim (trim s) = trim s.
Proof.
  unfold trim. destruct (trimStart s) as [|c t] eqn:E; [reflexivity|].
  pose proof (trimStart_head _ _ _ E) as W.
  destruct (trimEnd_head c t W) as [u U]. rewrite U.
  rewrite (trimStart_fixed c u W), <- U. apply trimEnd_idempotent.
Qed.

Lemma white_not_listed (c : ascii) :
  is_white_space c = true ->
  Ascii.eqb c "e" = false /\ Ascii.eqb c "E" = false /\
  Ascii.eqb c "-" = false /\ Ascii.eqb c "+" = false /\ Ascii.eqb c "." = false /\
  Ascii.eqb c "I" = false.
Proof. destruct c as [[] [] [] [] [] [] [] []]; vm_compute; intros H; repeat split; congruence. Qed.

Lemma read_digits_white (w : string) (acc n : Z) :
  all_white w = true -> read_digits w acc n = (acc, n, w).
Proof.
  destruct w as [|b w]; [reflexivity|]. simpl. intros H.
  apply andb_true_iff in H. rewrite (white_not_digit b (proj1 H)). reflexivity.
Qed.

Lemma read_digits_app_white (u w : string) (acc n : Z) :
  all_white w = true ->
  read_digits (u ++ w) acc n =
  let '(v, k, rest) := read_digits u acc n in (v, k, rest ++ w).
Proof.
  intros W. revert acc n. induction u as [|c u IH]; intros acc n.
  - simpl. apply read_digits_white. exact W.
  - simpl. destruct (is_digit c); [apply IH | reflexivity].
Qed.

Lemma read_exponent_white (w : string) : all_white w = true -> read_exponent w = 0.
Proof.
  destruct w as [|b w]; [reflexivity|]. simpl. intros H.
  apply andb_true_iff in H. destruct (white_not_listed b (proj1 H)) as (E1 & E2 & _).
  rewrite E1, E2. reflexivity.
Qed.

Lemma read_exponent_app_white (r w : string) :
  all_white w = true -> read_exponent (r ++ w) = read_exponent r.
Proof.
  intros W. destruct r as [|c r]; [apply read_exponent_white; exact W|].
  simpl. destruct (Ascii.eqb c "e" || Ascii.eqb c "E")%bool; [|reflexivity].
  destruct r as [|sg r].
  - simpl. destruct w as [|b w]; [reflexivity|].
    simpl in W. apply andb_true_iff in W. destruct W as [B W].
    destruct (white_not_listed b B) as (_ & _ & E3 & E4 & _).
    rewrite E3, E4. simpl. rewrite (white_not_digit b B). reflexivity.
  - simpl. destruct (Ascii.eqb sg "-").
    { rewrite (read_digits_app_white r w 0 0 W).
      destruct (read_digits r 0 0) as [[v k] rest]. reflexivity. }
    destruct (Ascii.eqb sg "+").
    { rewrite (read_digits_app_white r w 0 0 W).
      destruct (read_digits r 0 0) as [[v k] rest]. reflexivity. }
    destruct (is_digit sg); [|reflexivity].
    rewrite (read_digits_app_white r w _ _ W).
    match goal with
    | |- context [read_digits r ?x ?y] => destruct (read_digits r x y) as [[v k] rest]
    end.
    reflexivity.
Qed.

Lemma prefix_app_white (p u w : string) :
  all_white w = true ->
  (forall c, In c (list_ascii_of_string p) -> is_white_space c = false) ->
  prefix p (u ++ w) = prefix p u.
Proof.
  intros W. revert u. induction p as [|a p IH]; intros u P; [destruct u; [destruct w|]; reflexivity|].
  destruct u as [|b u].
  - simpl. destruct w as [|b w]; [reflexivity|].
    simpl in W. apply andb_true_iff in W. simpl.
    destruct (ascii_dec a b) as [E|_]; [|reflexivity].
    subst b. rewrite (P a (or_introl eq_refl)) in W. destruct W; discriminate.
  - simpl. destruct (ascii_dec a b); [|reflexivity].
    apply IH. intros c Hc. apply P. right. exact Hc.
Qed.

(** The literal scanned with a dot test instead of a pattern. *)
Lemma scan_unsigned_eq (s : string) :
  scan_unsigned s =
  if prefix "Infinity" s then Some LitInfinity
  else
    let '(iv, il, rest) := read_digits s 0 0 in
    match rest with
    | String c rest' =>
        if Ascii.eqb c "." then
          let '(v, fl, rest'') := read_digits rest' iv 0 in
          if (il =? 0) && (fl =? 0) then None
          else Some (LitDecimal v (read_exponent rest'' - fl))
        else if il =? 0 then None else Some (LitDecimal iv (read_exponent rest))
    | EmptyString => if il =? 0 then None else Some (LitDecimal iv (read_exponent rest))
    end.
Proof.
  unfold scan_unsigned. destruct (prefix "Infinity" s); [reflexivity|].
  destruct (read_digits s 0 0) as [[iv il] rest].
  destruct rest as [|c rest']; [reflexivity|].
  destruct c as [[] [] [] [] [] [] [] []]; reflexivity.
Qed.

Lemma scan_unsigned_app_white (u w : string) :
  all_white w = true -> scan_unsigned (u ++ w) = scan_unsigned u.
Proof.
  intros W. rewrite !scan_unsigned_eq.
  rewrite (prefix_app_white "Infinity" u w W).
  2:{ intros c Hc. simpl in Hc.
      repeat (destruct Hc as [Hc|Hc]; [subst c; reflexivity|]). contradiction. }
  destruct (prefix "Infinity" u); [reflexivity|].
  rewrite (read_digits_app_white u w 0 0 W).
  destruct (read_digits u 0 0) as [[iv il] rest].
  destruct rest as [|c rest'].
  - simpl. destruct w as [|b w]; [reflexivity|].
    pose proof W as W'. simpl in W'. apply andb_true_iff in W'.
    destruct (white_not_listed b (proj1 W')) as (_ & _ & _ & _ & E5 & _).
    rewrite E5. rewrite (read_exponent_white _ W). reflexivity.
  - cbn [append]. destruct (Ascii.eqb c ".").
    + rewrite (read_digits_app_white rest' w iv 0 W).
      destruct (read_digits rest' iv 0) as [[v fl] rest''].
      rewrite (read_exponent_app_white rest'' w W). reflexivity.
    + change (String c (rest' ++ w)) with (String c rest' ++ w).
      rewrite (read_exponent_app_white (String c rest') w W). reflexivity.
Qed.

Lemma scan_eq (input : string) :
  scan input =
  match trimStart input with
  | String c s =>
      if Ascii.eqb c "-" then (true, scan_unsigned s)
      else if Ascii.eqb c "+" then (false, scan_unsigned s)
      else (false, scan_unsigned (String c s))
  | EmptyString => (false, scan_unsigned "")
  end.
Proof.
  unfold scan. destruct (trimStart input) as [|c s]; [reflexivity|].
  destruct c as [[] [] [] [] [] [] [] []]; reflexivity.
Qed.

Lemma trimStart_trim (a : string) : trimStart (trim a) = trim a.
Proof.
  unfold trim. destruct (trimStart a) as [|c t] eqn:E; [reflexivity|].
  pose proof (trimStart_head _ _ _ E) as W.
  destruct (trimEnd_head c t W) as [u U]. rewrite U. apply trimStart_fixed. exact W.
Qed.

Lemma scan_trim (a : string) : scan (trim a) = scan a.
Proof.
  rewrite (scan_eq (trim a)), (scan_eq a), trimStart_trim.
  unfold trim. destruct (trimStart a) as [|c t] eqn:E; [reflexivity|].
  pose proof (trimStart_head _ _ _ E) as W.
  destruct (trimEnd_split (String c t)) as (w & Ww & S).
  destruct (trimEnd_head c t W) as [u U]. rewrite U in S |- *.
  simpl in S. injection S as S. subst t.
  rewrite !(scan_unsigned_app_white u w Ww).
  change (String c (u ++ w)) with (String c u ++ w).
  rewrite (scan_unsigned_app_white (String c u) w Ww). reflexivity.
Qed.

Lemma parseFloat_trim (a : string) : parseFloat (trim a) = parseFloat a.
Proof. unfold parseFloat. rewrite scan_trim. reflexivity. Qed.

(** ** More about the payment flow *)

Section FlowExtras.

Variable env : Imports.
Variable props : Props.



(** The awaited calls are a prefix of build, sign, submit, each made at
    most once, and each is fed by the one before: the envelope that is
    signed is the one the builder resolved to, and the envelope that is
    submitted is the non-empty one the signer resolved to. *)
Theorem calls_follow_the_pipeline (s : State) (key : Z) :
  let w := invoke env props s key in
  awaited (log w) = [] \/
  awaited (log w) = [build_call props s] \/
  (exists xdr,
     build_of env props s = Returned xdr /\
     awaited (log w) = [build_call props s; sign_call env props xdr]) \/
  (exists xdr signed,
     build_of env props s = Returned xdr /\
     sign_of env props xdr = Returned (Some signed) /\ signed <> "" /\
     awaited (log w) = [build_call props s; sign_call env props xdr; Submit signed]).
Proof.
  intros w. subst w. run_cases env props s key.
  - left. reflexivity.
  - right; left. reflexivity.
  - right; right; left. exists xdr. split; [assumption | reflexivity].
  - right; right; left. exists xdr. split; [assumption | reflexivity].
  - right; right; right. exists xdr, signed.
    repeat split; try assumption.
    intros E. subst signed. discriminate.
  - right; right; right. exists xdr, signed.
    repeat split; try assumption.
    + intros E. subst signed. discriminate.
    + destruct (onTransactionComplete props); reflexivity.
Qed.

(** The parent's callback is called at most once, and never by an
    invocation that ends with an error: such an invocation leaves the
    parent's refresh counter alone. *)
Theorem failure_does_not_notify (s : State) (key : Z) :
  let w := invoke env props s key in
  (notifications (log w) <= 1)%nat /\
  (error (ui w) <> None ->
   notifications (log w) = 0%nat /\ balanceRefreshKey w = key).
Proof.
  intros w. subst w. run_cases env props s key;
    try (split; [simpl; lia | intros _; split; reflexivity]).
  split.
  - destruct (onTransactionComplete props); simpl; lia.
  - intros N. exfalso. apply N. reflexivity.
Qed.

(** Submitting again from the state a successful invocation ends in does
    nothing (the emptied fields keep the control disabled); after a failed
    invocation that was started from an enabled control, the control is
    enabled again. *)
Theorem resubmission_after_an_invocation (s : State) (key : Z) :
  let w := invoke env props s key in
  (success (ui w) <> None ->
   submit_disabled (ui w) = true /\ submit_form env props w = (Returned tt, w)) /\
  (error (ui w) <> None -> submit_disabled s = false -> submit_disabled (ui w) = false).
Proof.
  intros w. subst w.
  assert (F : forall err, submit_disabled s = false ->
                          submit_disabled (failed_with s err) = false).
  { intros err D. unfold submit_disabled in *. simpl.
    apply orb_false_iff in D. destruct D as [D A].
    apply orb_false_iff in D. destruct D as [_ D]. rewrite D, A. reflexivity. }
  run_cases env props s key;
    try (split; [intros N; exfalso; apply N; reflexivity | intros _; apply F]).
  split.
  - intros _. split; reflexivity.
  - intros N. exfalso. apply N. reflexivity.
Qed.

(** While the handler is suspended the screen shows neither banner, even
    when the form still carried the error or the success of an earlier
    invocation, and the two fields show what the user entered. *)
Theorem suspension_shows_no_stale_banner
    (s : State) (key : Z) (c : Call) (scr : State) :
  In (Await c scr) (log (invoke env props s key)) ->
  error_banner_shown scr = false /\ success_banner_shown scr = false /\
  destination scr = destination s /\ amount scr = amount s.
Proof.
  intros Hin.
  run_cases env props s key; try (in_log Hin; injection Hin as _ <-; repeat split; reflexivity).
  destruct (onTransactionComplete props);
    in_log Hin; injection Hin as _ <-; repeat split; reflexivity.
Qed.

(** The label of the busy button: "Waiting for signature..." while the
    envelope is built and while it is signed, "Submitting transaction..."
    while it is submitted; the default "Processing..." is never on screen
    during a suspension. *)
Theorem step_label_during_suspension
    (s : State) (key : Z) (c : Call) (scr : State) :
  In (Await c scr) (log (invoke env props s key)) ->
  getStepLabel scr =
    match c with
    | Build _ _ _ => "Waiting for signature..."
    | Sign _ _ => "Waiting for signature..."
    | Submit _ => "Submitting transaction..."
    end /\
  getStepLabel scr <> "Processing...".
Proof.
  intros Hin.
  run_cases env props s key;
    try (in_log Hin; injection Hin as <- <-;
         (split; [reflexivity | intros E; vm_compute in E; discriminate E])).
  destruct (onTransactionComplete props);
    in_log Hin; injection Hin as <- <-;
    (split; [reflexivity | intros E; vm_compute in E; discriminate E]).
Qed.

(** Validation ignores white space around both fields: it gives the same
    verdict, with the same message, on the trimmed texts. *)
Theorem validation_ignores_surrounding_space (d a : string) :
  validateInputs env props (trim d) (trim a) = validateInputs env props d a.
Proof.
  unfold validateInputs. rewrite !trim_idempotent, parseFloat_trim. reflexivity.
Qed.

(** What reaches the builder.  A build is only ever requested for the
    connected key as source, a trimmed non-empty destination that passes
    the address check and differs from the source, and the trimmed amount,
    which is non-empty and parses to the very number validation accepted: a
    number above zero and not below 0.0000001. *)
Theorem build_receives_validated_input
    (s : State) (key : Z) (src dst amt : string) (scr : State) :
  In (Await (Build src dst amt) scr) (log (invoke env props s key)) ->
  src = publicKey props /\
  dst = trim (destination s) /\ trim dst = dst /\ dst <> "" /\
  isValidPublicKey env dst = true /\ dst <> publicKey props /\
  amt = trim (amount s) /\ trim amt = amt /\ amt <> "" /\
  parseFloat amt = parseFloat (amount s) /\
  isNaN (parseFloat amt) = false /\
  leb (parseFloat amt) zero = false /\
  ltb (parseFloat amt) min_amount = false.
Proof.
  intros Hin.
  assert (V : validateInputs env props (destination s) (amount s) = Returned true /\
              src = publicKey props /\ dst = trim (destination s) /\
              amt = trim (amount s)).
  { run_cases env props s key;
      try (in_log Hin; injection Hin as <- <- <- _; repeat split; assumption).
    destruct (onTransactionComplete props);
      in_log Hin; injection Hin as <- <- <- _; repeat split; assumption. }
  destruct V as (V & -> & -> & ->).
  rewrite !trim_idempotent, parseFloat_trim.
  unfold validateInputs in V.
  destruct (truthy (trim (destination s))) eqn:Hd; simpl in V; [|discriminate V].
  destruct (isValidPublicKey env (trim (destination s))) eqn:Hv; simpl in V;
    [|discriminate V].
  destruct (String.eqb_spec (trim (destination s)) (publicKey props)) as [He|He];
    [discriminate V|].
  destruct (truthy (trim (amount s))) eqn:Ha; simpl in V; [|discriminate V].
  destruct (isNaN (parseFloat (amount s))) eqn:Hn; simpl in V; [discriminate V|].
  destruct (leb (parseFloat (amount s)) zero) eqn:Hz; simpl in V; [discriminate V|].
  destruct (ltb (parseFloat (amount s)) min_amount) eqn:Hm; [discriminate V|].
  repeat split; try reflexivity; try assumption.
  - intros E. rewrite E in Hd. discriminate Hd.
  - intros E. rewrite E in Ha. discriminate Ha.
Qed.

End FlowExtras.

(** ** WalletConnect *)

(** Runs a handler of [WalletConnect] down to the answers of the
    extension, one case per answer. *)
Ltac wallet_cases :=
  cbv [WalletConnect.checkFreighterStatus WalletConnect.connectWallet
       WalletConnect.checkNetwork WalletConnect.call WalletConnect.set
       WalletConnect.emit WalletConnect.call_onConnect WalletConnect.fresh
       act_bind act_catch act_finally act_ret act_throw];
  cbn [WalletConnect.ui WalletConnect.ext WalletConnect.page WalletConnect.log
       fst snd negb];
  repeat
    (match goal with
     | |- context [WalletConnect.isConnected ?a ?x] =>
         destruct (WalletConnect.isConnected a x) as [[[|]|?] ?] eqn:?
     | |- context [WalletConnect.isAllowed ?a ?x] =>
         destruct (WalletConnect.isAllowed a x) as [[[|]|?] ?] eqn:?
     | |- context [WalletConnect.setAllowed ?a ?x] =>
         destruct (WalletConnect.setAllowed a x) as [[?|?] ?] eqn:?
     | |- context [WalletConnect.getPublicKey ?a ?x] =>
         destruct (WalletConnect.getPublicKey a x) as [[[?|]|?] ?] eqn:?
     | |- context [WalletConnect.getNetwork ?a ?x] =>
         destruct (WalletConnect.getNetwork a x) as [[?|?] ?] eqn:?
     | |- context [truthy ?k] => destruct (truthy k) eqn:?
     | |- context [String.eqb ?n "TESTNET"] => destruct (String.eqb n "TESTNET") eqn:?
     end;
     cbn [WalletConnect.ui WalletConnect.ext WalletConnect.page WalletConnect.log
          fst snd negb]).

Section WalletConnectFacts.

Variable X : Type.
Variable api : WalletConnect.Freighter X.
Variable props : WalletConnect.Props.


(** [connectWallet] tells the page about a connection at most once, and
    only with a non-empty key that [getPublicKey] resolved to, after
    [getNetwork], asked next, resolved to "TESTNET"; the run then ends with
    the network flag set and no error.  In every other run the page is left
    as it was. *)
Theorem connectWallet_connects_with_checked_key
    (silent : bool) (s : WalletConnect.State) (x : X) (p : Index.Page) :
  let w := snd (WalletConnect.connectWallet X api props silent
                  (WalletConnect.fresh X s x p)) in
  (WalletConnect.connections (WalletConnect.log w) = [] /\ WalletConnect.page w = p) \/
  (exists key x1 x2,
     WalletConnect.getPublicKey api x1 = (Returned (Some key), x2) /\
     key <> "" /\
     WalletConnect.getNetwork api x2 = (Returned "TESTNET", WalletConnect.ext w) /\
     WalletConnect.connections (WalletConnect.log w) = [key] /\
     WalletConnect.page w = WalletConnect.onConnect props key p /\
     WalletConnect.networkCorrect (WalletConnect.ui w) = true /\
     WalletConnect.error (WalletConnect.ui w) = None).
Proof.
  intros w. subst w. wallet_cases;
    try (left; destruct silent; split; reflexivity);
    right;
    match goal with
    | K : WalletConnect.getPublicKey api ?x1 = (Returned (Some ?key), ?x2),
      N : WalletConnect.getNetwork api ?x2 = (Returned ?n, ?x3),
      E : String.eqb ?n "TESTNET" = true,
      T : truthy ?key = true |- _ =>
        exists key, x1, x2; apply String.eqb_eq in E; subst n;
        repeat split; try assumption; try reflexivity;
        intros Z; subst key; discriminate T
    end.
Qed.


(** Permission is requested exactly when [isAllowed] resolved to false. *)
Theorem connectWallet_asks_permission_when_not_allowed
    (silent : bool) (s : WalletConnect.State) (x : X) (p : Index.Page) :
  let w := snd (WalletConnect.connectWallet X api props silent
                  (WalletConnect.fresh X s x p)) in
  In WalletConnect.SetAllowed (WalletConnect.awaited (WalletConnect.log w)) <->
  fst (WalletConnect.isAllowed api x) = Returned false.
Proof.
  intros w. subst w. wallet_cases; destruct silent; simpl;
    split; intros H; try reflexivity; try discriminate H;
    try (repeat (destruct H as [H|H]; try discriminate H); contradiction);
    try (right; left; reflexivity); auto.
Qed.

End WalletConnectFacts.

Section WalletConnectInIndex.

Variable X : Type.
Variable api : WalletConnect.Freighter X.

(** From a page with no wallet connected, neither the status check on
    mount nor a connection attempt can end in a state that shows the
    "switch to Testnet" warning: the page only learns a key after the
    network was found to be the test network. *)
Theorem network_warning_never_shown
    (silent : bool) (s : WalletConnect.State) (x : X) (p : Index.Page) :
  Index.publicKey p = None ->
  let w1 := snd (WalletConnect.connectWallet X api WalletConnect.Index_props silent
                   (WalletConnect.fresh X s x p)) in
  let w2 := snd (WalletConnect.checkFreighterStatus X api WalletConnect.Index_props
                   (WalletConnect.fresh X s x p)) in
  WalletConnect.network_warning_shown (WalletConnect.ui w1) (WalletConnect.page w1) = false /\
  WalletConnect.network_warning_shown (WalletConnect.ui w2) (WalletConnect.page w2) = false.
Proof.
  intros P w1 w2. subst w1 w2. unfold WalletConnect.network_warning_shown. split.
  - wallet_cases; destruct silent; simpl; try rewrite P; simpl;
      try reflexivity; apply andb_false_r.
  - wallet_cases; simpl; try rewrite P; simpl; try reflexivity; apply andb_false_r.
Qed.

(** The status check on mount never rejects and always leaves the
    "Checking wallet..." view.  It ends in the main view exactly when
    [isConnected] resolved to true and the [isAllowed] asked next resolved
    at all; when that [isAllowed] rejects, the install prompt is shown. *)
Theorem checkFreighterStatus_resolves_the_view
    (s : WalletConnect.State) (x : X) (p : Index.Page) :
  let r := WalletConnect.checkFreighterStatus X api WalletConnect.Index_props
             (WalletConnect.fresh X s x p) in
  fst r = Returned tt /\
  WalletConnect.view (WalletConnect.ui (snd r)) =
    match WalletConnect.isConnected api x with
    | (Returned true, x1) =>
        match WalletConnect.isAllowed api x1 with
        | (Returned _, _) => WalletConnect.Main
        | (Thrown _, _) => WalletConnect.InstallPrompt
        end
    | _ => WalletConnect.InstallPrompt
    end.
Proof.
  intros r. subst r. wallet_cases; split; reflexivity.
Qed.

End WalletConnectInIndex.

(** ** Balance *)

Section BalanceFacts.

Variable getBalance : string -> outcome string.
Variable now : Z.


End BalanceFacts.

(** ** TransactionHistory *)

Section HistoryFacts.

Variable getTransactionHistory :
  string -> Z -> outcome (list TransactionHistory.Tx).


End HistoryFacts.

(** ** Abbreviated addresses *)

Lemma substring_prefix (p r : string) : substring 0 (String.length p) (p ++ r) = p.
Proof.
  induction p as [|c p IH]; simpl.
  - destruct r; reflexivity.
  - rewrite IH. reflexivity.
Qed.

Lemma substring_whole (r : string) : substring 0 (String.length r) r = r.
Proof. induction r as [|c r IH]; simpl; [|rewrite IH]; reflexivity. Qed.

Lemma substring_skip (p r : string) (m : nat) :
  substring (String.length p) m (p ++ r) = substring 0 m r.
Proof. induction p as [|c p IH]; simpl; [reflexivity | exact IH]. Qed.

Lemma length_append (p r : string) :
  String.length (p ++ r) = (String.length p + String.length r)%nat.
Proof. induction p as [|c p IH]; simpl; [|rewrite IH]; reflexivity. Qed.

Lemma split_at (n : nat) (a : string) :
  (n <= String.length a)%nat ->
  exists p r, a = p ++ r /\ String.length p = n.
Proof.
  revert a. induction n as [|n IH]; intros a H.
  - exists "", a. split; reflexivity.
  - destruct a as [|c a]; simpl in H; [lia|].
    destruct (IH a ltac:(lia)) as (p & r & E & L).
    exists (String c p), r. simpl. rewrite <- E, L. split; reflexivity.
Qed.

(** [slice(0, n)] and [slice(-n)] are the first and the last [min n len]
    characters. *)
Lemma slice_ends (n : nat) (a : string) :
  (0 < n)%nat ->
  exists p r r' q,
    a = p ++ r /\ a = r' ++ q /\
    String.length p = Nat.min n (String.length a) /\
    String.length q = Nat.min n (String.length a) /\
    slice a 0 (Some (Z.of_nat n)) = p /\
    slice a (- Z.of_nat n) None = q.
Proof.
  intros N. remember (Nat.min n (String.length a)) as k eqn:K.
  destruct (split_at k a ltac:(lia)) as (p & r & E & L).
  destruct (split_at (String.length a - k) a ltac:(lia)) as (r' & q & E' & L').
  assert (Lq : String.length q = k).
  { pose proof (f_equal String.length E') as F. rewrite length_append in F. lia. }
  exists p, r, r', q. repeat split; try assumption.
  - unfold slice. cbv beta zeta.
    change (0 <? 0) with false. cbv iota.
    destruct (Z.ltb_spec (Z.of_nat n) 0) as [B|_]; [lia|].
    match goal with
    | |- substring ?i ?m a = p =>
        replace i with 0%nat by lia; replace m with k by lia
    end.
    rewrite E at 1. rewrite <- L. apply substring_prefix.
  - unfold slice. cbv beta zeta.
    destruct (Z.ltb_spec (- Z.of_nat n) 0) as [_|B]; [|lia].
    match goal with
    | |- substring ?i ?m a = q =>
        replace i with (String.length a - k)%nat by lia; replace m with k by lia
    end.
    rewrite E' at 2. rewrite <- L', <- Lq.
    rewrite substring_skip. apply substring_whole.
Qed.

(** [formatAddress] of the wallet card shows the first and the last
    [min 4 len] characters of a non-empty address around "...": 11
    characters for any address of four characters or more, and the whole
    address twice for a shorter one. *)
Theorem WalletConnect_formatAddress_ends (a : string) :
  a <> "" ->
  exists p r r' q,
    a = p ++ r /\ a = r' ++ q /\
    String.length p = Nat.min 4 (String.length a) /\
    String.length q = Nat.min 4 (String.length a) /\
    WalletConnect.formatAddress (Some a) = p ++ "..." ++ q /\
    ((String.length a <= 4)%nat -> p = a /\ q = a).
Proof.
  intros N. destruct (slice_ends 4 a ltac:(lia)) as (p & r & r' & q & E & E' & L & L' & S & S').
  exists p, r, r', q. repeat split; try assumption.
  - unfold WalletConnect.formatAddress.
    assert (T : truthy a = true) by (destruct a; [exfalso; apply N; reflexivity | reflexivity]).
    rewrite T.
    change (Z.of_nat 4) with 4 in S, S'. change (- (4)) with (-4) in S'.
    rewrite S, S'. reflexivity.
  - pose proof (f_equal String.length E) as F. rewrite length_append in F.
    assert (R : r = "") by (destruct r; [reflexivity | simpl in F; lia]).
    subst r. rewrite E. clear. induction p; simpl; [|rewrite <- IHp]; reflexivity.
  - pose proof (f_equal String.length E') as F. rewrite length_append in F.
    assert (R : r' = "") by (destruct r'; [reflexivity | simpl in F; lia]).
    subst r'. rewrite E'. reflexivity.
Qed.

(** [formatAddress] of the history list does the same with six
    characters. *)
Theorem TransactionHistory_formatAddress_ends (a : string) :
  a <> "" ->
  exists p r r' q,
    a = p ++ r /\ a = r' ++ q /\
    String.length p = Nat.min 6 (String.length a) /\
    String.length q = Nat.min 6 (String.length a) /\
    TransactionHistory.formatAddress (Some a) = p ++ "..." ++ q /\
    ((String.length a <= 6)%nat -> p = a /\ q = a).
Proof.
  intros N. destruct (slice_ends 6 a ltac:(lia)) as (p & r & r' & q & E & E' & L & L' & S & S').
  exists p, r, r', q. repeat split; try assumption.
  - unfold TransactionHistory.formatAddress.
    assert (T : truthy a = true) by (destruct a; [exfalso; apply N; reflexivity | reflexivity]).
    rewrite T.
    change (Z.of_nat 6) with 6 in S, S'. change (- (6)) with (-6) in S'.
    rewrite S, S'. reflexivity.
  - pose proof (f_equal String.length E) as F. rewrite length_append in F.
    assert (R : r = "") by (destruct r; [reflexivity | simpl in F; lia]).
    subst r. rewrite E. clear. induction p; simpl; [|rewrite <- IHp]; reflexivity.
  - pose proof (f_equal String.length E') as F. rewrite length_append in F.
    assert (R : r' = "") by (destruct r'; [reflexivity | simpl in F; lia]).
    subst r'. rewrite E'. reflexivity.
Qed.

(** ** The added properties at concrete inputs *)


Lemma failure_does_not_notify_witness :
  notifications (log (invoke Sample.no_account Sample.props Sample.filled 7)) = 0%nat /\
  balanceRefreshKey (invoke Sample.no_account Sample.props Sample.filled 7) = 7.
Proof.
  apply (proj2 (failure_does_not_notify Sample.no_account Sample.props Sample.filled 7)).
  vm_compute. discriminate.
Defined.

Lemma resubmission_after_an_invocation_witness :
  submit_form Sample.all_ok Sample.props
    (invoke Sample.all_ok Sample.props Sample.filled 0)
  = (Returned tt, invoke Sample.all_ok Sample.props Sample.filled 0) /\
  submit_disabled (ui (invoke Sample.no_account Sample.props Sample.filled 0)) = false.
Proof.
  split.
  - apply (proj1 (resubmission_after_an_invocation Sample.all_ok Sample.props
                    Sample.filled 0)).
    vm_compute. discriminate.
  - apply (proj2 (resubmission_after_an_invocation Sample.no_account Sample.props
                    Sample.filled 0)).
    + vm_compute. discriminate.
    + reflexivity.
Defined.

Lemma suspension_shows_no_stale_banner_witness :
  error_banner_shown (in_progress Sample.filled "signing") = false.
Proof.
  refine (proj1 (suspension_shows_no_stale_banner Sample.all_ok Sample.props
                   {| destination := Sample.dest_key; amount := "1.5"; isLoading := false;
                      error := Some "Account not found"; success := None;
                      step := "input" |} 0
                   (build_call Sample.props Sample.filled)
                   (in_progress Sample.filled "signing") _)).
  vm_compute. do 4 right. left. reflexivity.
Defined.

Lemma step_label_during_suspension_witness :
  getStepLabel (in_progress Sample.filled "signing") = "Waiting for signature...".
Proof.
  refine (proj1 (step_label_during_suspension Sample.all_ok Sample.props
                   Sample.filled 0
                   (build_call Sample.props Sample.filled)
                   (in_progress Sample.filled "signing") _)).
  vm_compute. do 4 right. left. reflexivity.
Defined.

Lemma build_receives_validated_input_witness :
  isValidPublicKey Sample.all_ok Sample.dest_key = true /\
  parseFloat "1.5" = parseFloat "  1.5 ".
Proof.
  pose proof (build_receives_validated_input Sample.all_ok Sample.props
                (Sample.form ("  " ++ Sample.dest_key) "  1.5 ") 0
                Sample.source_key Sample.dest_key "1.5"
                (in_progress (Sample.form ("  " ++ Sample.dest_key) "  1.5 ") "signing")) as H.
  assert (Hin : In (Await (Build Sample.source_key Sample.dest_key "1.5")
                      (in_progress (Sample.form ("  " ++ Sample.dest_key) "  1.5 ") "signing"))
                   (log (invoke Sample.all_ok Sample.props
                           (Sample.form ("  " ++ Sample.dest_key) "  1.5 ") 0))).
  { vm_compute. do 4 right. left. reflexivity. }
  specialize (H Hin).
  destruct H as (_ & _ & _ & _ & V & _ & _ & _ & _ & P & _).
  split; [exact V | exact P].
Defined.


Lemma connectWallet_asks_permission_when_not_allowed_witness :
  In WalletConnect.SetAllowed
     (WalletConnect.awaited
        (WalletConnect.log
           (snd (WalletConnect.connectWallet bool (SampleWallet.extension "TESTNET")
                   WalletConnect.Index_props false
                   (WalletConnect.fresh bool WalletConnect.initial false Index.initial))))).
Proof.
  apply (proj2 (connectWallet_asks_permission_when_not_allowed bool
                  (SampleWallet.extension "TESTNET") WalletConnect.Index_props false
                  WalletConnect.initial false Index.initial)).
  reflexivity.
Defined.

Lemma network_warning_never_shown_witness :
  WalletConnect.network_warning_shown
    (WalletConnect.ui
       (snd (WalletConnect.connectWallet bool (SampleWallet.extension "PUBLIC")
               WalletConnect.Index_props false
               (WalletConnect.fresh bool WalletConnect.initial true Index.initial))))
    (WalletConnect.page
       (snd (WalletConnect.connectWallet bool (SampleWallet.extension "PUBLIC")
               WalletConnect.Index_props false
               (WalletConnect.fresh bool WalletConnect.initial true Index.initial))))
  = false.
Proof.
  exact (proj1 (network_warning_never_shown bool (SampleWallet.extension "PUBLIC")
                  false WalletConnect.initial true Index.initial eq_refl)).
Defined.



Lemma WalletConnect_formatAddress_ends_witness :
  exists p r r' q,
    "GA" = p ++ r /\ "GA" = r' ++ q /\
    String.length p = Nat.min 4 (String.length "GA") /\
    String.length q = Nat.min 4 (String.length "GA") /\
    WalletConnect.formatAddress (Some "GA") = p ++ "..." ++ q /\
    ((String.length "GA" <= 4)%nat -> p = "GA" /\ q = "GA").
Proof. apply (WalletConnect_formatAddress_ends "GA"). discriminate. Defined.

Lemma TransactionHistory_formatAddress_ends_witness :
  exists p r r' q,
    Sample.dest_key = p ++ r /\ Sample.dest_key = r' ++ q /\
    String.length p = Nat.min 6 (String.length Sample.dest_key) /\
    String.length q = Nat.min 6 (String.length Sample.dest_key) /\
    TransactionHistory.formatAddress (Some Sample.dest_key) = p ++ "..." ++ q /\
    ((String.length Sample.dest_key <= 6)%nat ->
     p = Sample.dest_key /\ q = Sample.dest_key).
Proof. apply (TransactionHistory_formatAddress_ends Sample.dest_key). discriminate. Defined.
